(** * sol-seek: the token screener of [jupiter.py]

    A shallow embedding of [get_top_tokens], [calculate_potential_gains]
    and the body of [main], and the properties of the stablecoin filter,
    the two guarded divisions, the threshold filter, the three top-30
    rankings and the consensus sets.

    Conventions of the embedding.
    - A Python object that comes out of [response.json()] is a [value].
      A finite number, [int] or [float], is [VNum q] with [q] its exact
      value; the floats that are not finite are [VInf] and [VNaN].
      Comparisons of Python numbers are exact.
    - What the interpreter computes by rounding or by tables is not
      computed here: the quotient [x / y] of two numbers and the upper
      case of a string are the methods of the class [Python], with the
      few laws the proofs use. Every theorem holds for every instance,
      the interpreter's own among them.
    - Code that can raise runs in the monad [M]: a computation yields the
      list of denominators of the divisions it evaluated, and either a
      result or the exception that ended it.
    - A [pandas.DataFrame] is the list of its rows; sets of display keys
      are [gset string]. *)

From Stdlib Require Import QArith Strings.Ascii.
From Stdlib Require Import Sorting.Sorted Sorting.Permutation.
From stdpp Require Import base list strings gmap sets.

Local Open Scope string_scope.
Local Open Scope list_scope.

(** ** Python objects *)

#[local] Set Warnings "-register-all".

Inductive value : Type :=
  | VNone
  | VBool (b : bool)
  | VNum (q : Q)
  | VInf (negative : bool)
  | VNaN
  | VStr (s : string)
  | VList (items : list value)
  | VDict (entries : list (string * value)).

(** A [dict] is kept as the list of its entries; a key is looked up from
    the front, so every Python [dict] is the list of its items. *)
Fixpoint dict_get (key : string) (entries : list (string * value)) : option value :=
  match entries with
  | [] => None
  | (k, v) :: rest => if String.eqb key k then Some v else dict_get key rest
  end.

Definition Qltb (x y : Q) : bool :=
  match Qcompare x y with Lt => true | _ => false end.

(** ** Python numbers

    The value of an [int] or of a [float]: a rational, an infinity or
    not-a-number. *)
Inductive number : Type :=
  | Fin (q : Q)
  | Inf (negative : bool)
  | NaN.

(** [bool] is a subclass of [int]: [True] counts as 1 and [False] as 0. *)
Definition to_number (v : value) : option number :=
  match v with
  | VNum q => Some (Fin q)
  | VBool b => Some (Fin (if b then 1%Q else 0%Q))
  | VInf negative => Some (Inf negative)
  | VNaN => Some NaN
  | _ => None
  end.

Definition of_number (x : number) : value :=
  match x with
  | Fin q => VNum q
  | Inf negative => VInf negative
  | NaN => VNaN
  end.

(** [x < y] on numbers: exact on the finite ones, and [False] as soon as
    one side is not-a-number. *)
Definition number_ltb (x y : number) : bool :=
  match x, y with
  | NaN, _ | _, NaN => false
  | Fin a, Fin b => Qltb a b
  | Fin _, Inf negative => negb negative
  | Inf negative, Fin _ => negative
  | Inf n1, Inf n2 => n1 && negb n2
  end.

(** [y == 0] *)
Definition is_zero (y : number) : bool :=
  match y with
  | Fin q => Qeq_bool q 0
  | _ => false
  end.

Definition positive_number (y : number) : Prop := number_ltb (Fin 0) y = true.

Definition nonnegative (r : number) : Prop :=
  match r with
  | Fin q => (0 <= q)%Q
  | Inf negative => negative = false
  | NaN => False
  end.

(** ** Exceptions and the monad of the program *)

Inductive exn : Type :=
  | KeyError (key : string)
  | TypeError
  | AttributeError
  | ZeroDivisionError
  | OverflowError
  | OtherError (name : string).

Inductive outcome (A : Type) : Type :=
  | Returns (a : A)
  | Raises (e : exn).
Arguments Returns {A} a.
Arguments Raises {A} e.

(** First component: the denominators of the divisions evaluated so far,
    oldest first. *)
Definition M (A : Type) : Type := (list number * outcome A)%type.

Definition ret {A} (a : A) : M A := ([], Returns a).
Definition raise {A} (e : exn) : M A := ([], Raises e).
Definition bind {A B} (m : M A) (f : A -> M B) : M B :=
  match m with
  | (ds, Returns a) => let (ds', r) := f a in (ds ++ ds', r)
  | (ds, Raises e) => (ds, Raises e)
  end.

Declare Scope py_scope.
Delimit Scope py_scope with py.
Notation "x <- c1 ;; c2" := (bind c1 (fun x => c2))
  (at level 100, c1 at next level, right associativity) : py_scope.
Local Open Scope py_scope.

Definition denominators {A} (m : M A) : list number := fst m.
Definition result {A} (m : M A) : outcome A := snd m.

(** ** Operations on Python objects *)

(** [token[key]] *)
Definition getitem (token : list (string * value)) (key : string) : M value :=
  match dict_get key token with
  | Some v => ret v
  | None => raise (KeyError key)
  end.

(** [a > b] and [a < b]. In this program one side is always a number, so
    the only defined case is the one of two numbers. *)
Definition py_lt (a b : value) : M bool :=
  match to_number a, to_number b with
  | Some x, Some y => ret (number_ltb x y)
  | _, _ => raise TypeError
  end.

Definition py_gt (a b : value) : M bool := py_lt b a.

(** [s.upper()] restricted to the ASCII letters, and the strings made of
    ASCII characters only, on which it is what [str.upper] does. *)
Definition upper_ascii (c : ascii) : ascii :=
  let n := nat_of_ascii c in
  if (97 <=? n)%nat && (n <=? 122)%nat then ascii_of_nat (n - 32) else c.

Fixpoint upper (s : string) : string :=
  match s with
  | EmptyString => EmptyString
  | String c rest => String (upper_ascii c) (upper rest)
  end.

Fixpoint ascii_only (s : string) : bool :=
  match s with
  | EmptyString => true
  | String c rest => (nat_of_ascii c <? 128)%nat && ascii_only rest
  end.

(** ** What the interpreter computes

    [truediv x y] is what [x / y] evaluates to for two numbers with
    [y] not zero: a float, or [None] when it raises [OverflowError] (an
    [int] beyond the range of the floats). The result is the quotient
    rounded, once or twice, to a float, so its exact value is left open;
    the laws say that it keeps the sign of a quotient of a finite number
    that is not negative by a positive one, and that it does not exceed 1
    when the quotient does not. Both hold whether the operands are
    [int] or [float]: the conversions and the division round to the
    nearest float, which is monotone and leaves 0 and 1 as they are.
    Like [value], [truediv] does not tell an [int] from a [float] of
    the same value.

    [str_upper s] is [s.upper()], which follows the Unicode tables; on
    ASCII strings it is [upper]. *)
Class Python : Type := {
  truediv : number -> number -> option number;
  str_upper : string -> string;
  truediv_nonnegative : forall (x : Q) (y r : number),
    (0 <= x)%Q -> positive_number y ->
    truediv (Fin x) y = Some r -> nonnegative r;
  truediv_le_one : forall (x y : Q) (r : number),
    (0 < y)%Q -> (x <= y)%Q ->
    truediv (Fin x) (Fin y) = Some r -> number_ltb (Fin 1) r = false;
  str_upper_ascii : forall s, ascii_only s = true -> str_upper s = upper s
}.

(** An instance to run the program with: the quotient without any
    rounding, which never overflows, and the ASCII upper case. *)
Definition exact_quotient (x y : number) : option number :=
  match x, y with
  | NaN, _ | _, NaN => Some NaN
  | Fin a, Fin b => Some (Fin (a / b))
  | Fin _, Inf _ => Some (Fin 0)
  | Inf negative, Fin b => Some (Inf (xorb negative (Qltb b 0)))
  | Inf _, Inf _ => Some NaN
  end.

(** [a / b] on numbers; the denominator is recorded. *)
Definition py_truediv `{Py : Python} (a b : value) : M value :=
  match to_number a, to_number b with
  | Some x, Some y =>
      if is_zero y then ([y], Raises ZeroDivisionError)
      else match truediv x y with
           | Some r => ([y], Returns (of_number r))
           | None => ([y], Raises OverflowError)
           end
  | _, _ => raise TypeError
  end.

(** [for x in v]: the items a loop over [v] visits. A [dict] yields its
    keys and a [str] its one-character strings. *)
Definition iterate (v : value) : M (list value) :=
  match v with
  | VList items => ret items
  | VDict entries => ret (map (fun kv => VStr (fst kv)) entries)
  | VStr s => ret (map (fun c => VStr (String c EmptyString)) (String.list_ascii_of_string s))
  | _ => raise TypeError
  end.

(** ** [get_top_tokens] *)

(** What fetching and parsing a page does. [requests.get] or
    [response.json()] ends with an exception that the [except ValueError]
    around the parsing does not catch ([Fails]: a failure of the request,
    which is outside the [try], or a failure of the parsing that is no
    [ValueError]); or the parsing raises [ValueError] ([BadBody]); or it
    returns the parsed object ([Body]). *)
Inductive response : Type :=
  | Fails (e : exn)
  | BadBody
  | Body (page_tokens : value).

Definition stablecoins : list string := ["usdt"; "usdc"; "dai"; "busd"; "ust"].

(** [v not in names], for a list of strings: [==] between a [str] and
    any other kind of object is [False]. *)
Definition py_eq_str (v : value) (s : string) : bool :=
  match v with
  | VStr t => String.eqb t s
  | _ => false
  end.

Definition not_in (v : value) (names : list string) : bool :=
  negb (existsb (py_eq_str v) names).

(** The condition of the comprehension:
    [isinstance(token, dict) and 'symbol' in token
     and token['symbol'] not in stablecoins]. *)
Definition keep_token (token : value) : bool :=
  match token with
  | VDict entries =>
      match dict_get "symbol" entries with
      | Some symbol => not_in symbol stablecoins
      | None => false
      end
  | _ => false
  end.

(** The loop over the pages, with [tokens] the list built so far. A body
    that does not parse ends the function with the empty list; any other
    failure of the fetch leaves the function as it is. *)
Fixpoint fetch_pages (fetch : Z -> response) (pages : list Z) (tokens : list value)
  : M (list value) :=
  match pages with
  | [] => ret tokens
  | page :: rest =>
      match fetch page with
      | Fails e => raise e
      | BadBody => ret []
      | Body page_tokens =>
          items <- iterate page_tokens ;;
          fetch_pages fetch rest (tokens ++ List.filter keep_token items)
      end
  end.

Definition get_top_tokens (fetch : Z -> response) : M (list value) :=
  fetch_pages fetch [1; 2; 3; 4]%Z [].

(** ** [calculate_potential_gains] *)

Definition calculate_potential_gains `{Py : Python} (current_price ath_price : value)
  : M value :=
  positive <- py_gt current_price (VNum 0) ;;
  if positive : bool then py_truediv ath_price current_price
  else ret (VNum 0).

(** ** [main]: the loop over the fetched tokens *)

(** The three sliders. *)
Record config : Type := {
  market_cap_min : Q;
  market_cap_max : Q;
  volume_min : Q
}.

(** [market_cap / volume if volume > 0 else 0] *)
Definition mc_vol_ratio `{Py : Python} (market_cap volume : value) : M value :=
  positive <- py_gt volume (VNum 0) ;;
  if positive : bool then py_truediv market_cap volume
  else ret (VNum 0).

(** [market_cap_min < market_cap < market_cap_max and volume > volume_min
     and potential_gains > 1], with the short circuits of the chained
    comparison and of [and]. *)
Definition passes_filters (cfg : config) (market_cap volume potential_gains : value)
  : M bool :=
  above <- py_lt (VNum (market_cap_min cfg)) market_cap ;;
  if negb above then ret false else
  below <- py_lt market_cap (VNum (market_cap_max cfg)) ;;
  if negb below then ret false else
  liquid <- py_gt volume (VNum (volume_min cfg)) ;;
  if negb liquid then ret false else
  py_gt potential_gains (VNum 1).

(** [token[key]] for an arbitrary object: only a [dict] can be indexed by
    a string. *)
Definition subscript (token : value) (key : string) : M value :=
  match token with
  | VDict entries => getitem entries key
  | _ => raise TypeError
  end.

(** [v.upper()]: only a string has the method. *)
Definition py_upper `{Py : Python} (v : value) : M string :=
  match v with
  | VStr s => ret (str_upper s)
  | _ => raise AttributeError
  end.

(** The dictionary appended to [results]: a scored asset. *)
Record scored : Type := {
  Token_Name : value;
  Symbol : string;
  Current_Price : value;
  ATH : value;
  Potential_Gains : value;
  Market_Cap : value;
  Volume : value;
  Price_Change_7D : value;
  MC_Volume_Ratio : value
}.

(** The body of the loop: [None] when the token is filtered out. *)
Definition process_token `{Py : Python} (cfg : config) (token : value)
  : M (option scored) :=
  token_name <- subscript token "name" ;;
  token_symbol <- subscript token "symbol" ;;
  current_price <- subscript token "current_price" ;;
  ath_price <- subscript token "ath" ;;
  volume <- subscript token "total_volume" ;;
  market_cap <- subscript token "market_cap" ;;
  price_change_7d <- subscript token "price_change_percentage_7d_in_currency" ;;
  ratio <- mc_vol_ratio market_cap volume ;;
  potential_gains <- calculate_potential_gains current_price ath_price ;;
  keep <- passes_filters cfg market_cap volume potential_gains ;;
  if keep : bool then
    symbol <- py_upper token_symbol ;;
    ret (Some {| Token_Name := token_name;
                 Symbol := symbol;
                 Current_Price := current_price;
                 ATH := ath_price;
                 Potential_Gains := potential_gains;
                 Market_Cap := market_cap;
                 Volume := volume;
                 Price_Change_7D := price_change_7d;
                 MC_Volume_Ratio := ratio |})
  else ret None.

Definition append_result (results : list scored) (r : option scored) : list scored :=
  match r with
  | Some s => results ++ [s]
  | None => results
  end.

Fixpoint process_tokens `{Py : Python} (cfg : config) (top_tokens : list value)
    (results : list scored) : M (list scored) :=
  match top_tokens with
  | [] => ret results
  | token :: rest =>
      r <- process_token cfg token ;;
      process_tokens cfg rest (append_result results r)
  end.

(** The threshold filter on its own: the condition of the loop applied to
    the three columns of a scored asset that it reads. *)
Definition passes (cfg : config) (s : scored) : M bool :=
  passes_filters cfg (Market_Cap s) (Volume s) (Potential_Gains s).

Fixpoint threshold_filter (cfg : config) (assets : list scored) : M (list scored) :=
  match assets with
  | [] => ret []
  | s :: rest =>
      keep <- passes cfg s ;;
      kept <- threshold_filter cfg rest ;;
      ret (if keep : bool then s :: kept else kept)
  end.

(** ** [main]: the data frame *)

(** A row of [df]. The frames modelled are the ones whose name column
    holds strings and whose numeric columns hold numbers; a [null] 7-day
    change is the missing value [NaN], kept as [None]. *)
Record row : Type := {
  col_token_name : string;
  col_symbol : string;
  col_current_price : Q;
  col_ath : Q;
  col_potential_gains : Q;
  col_market_cap : Q;
  col_volume : Q;
  col_price_change_7d : option Q;
  col_mc_volume_ratio : Q
}.






(** [df["Token"] = df["Token Name"] + " (" + df["Symbol"] + ")"] *)
Definition Token (r : row) : string :=
  col_token_name r ++ " (" ++ col_symbol r ++ ")".

(** The three columns the frame is sorted by. *)
Inductive sort_column : Type :=
  | Potential_Gains_x
  | Price_Change_7D_pct
  | MC_Volume_Ratio_col.

Definition cell (by_ : sort_column) (r : row) : option Q :=
  match by_ with
  | Potential_Gains_x => Some (col_potential_gains r)
  | Price_Change_7D_pct => col_price_change_7d r
  | MC_Volume_Ratio_col => Some (col_mc_volume_ratio r)
  end.

(** The order [sort_values] puts two cells in: by value, ascending or
    descending, with missing values last either way. *)
Definition cell_le (ascending : bool) (a b : option Q) : Prop :=
  match a, b with
  | Some x, Some y => if ascending then (x <= y)%Q else (y <= x)%Q
  | _, None => True
  | None, Some _ => False
  end.

Definition in_order (by_ : sort_column) (ascending : bool) (r1 r2 : row) : Prop :=
  cell_le ascending (cell by_ r1) (cell by_ r2).

(** [DataFrame.sort_values(by=..., ascending=...)] is pandas' own. Its
    default algorithm is not stable, so the order of ties is left open:
    the program is read against any function that returns the rows of the
    frame, each as often as it occurs, in the order of the column. *)
Class Sorter : Type := {
  sort_values : sort_column -> bool -> list row -> list row;
  sort_values_perm : forall by_ ascending df,
    Permutation (sort_values by_ ascending df) df;
  sort_values_sorted : forall by_ ascending df,
    Sorted (in_order by_ ascending) (sort_values by_ ascending df)
}.

(** [df.head(n)] *)
Definition head (n : nat) (df : list row) : list row := take n df.

(** [min(x, 1000)]: Python's [min] returns its first argument unless the
    second is strictly smaller. *)
Definition py_min (x y : Q) : Q := if Qltb y x then y else x.

(** [df_sorted["Potential Gains (x)"].apply(lambda x: min(x, 1000))],
    assigned back to the column. *)
Definition cap_gains (r : row) : row :=
  {| col_token_name := col_token_name r;
     col_symbol := col_symbol r;
     col_current_price := col_current_price r;
     col_ath := col_ath r;
     col_potential_gains := py_min (col_potential_gains r) 1000;
     col_market_cap := col_market_cap r;
     col_volume := col_volume r;
     col_price_change_7d := col_price_change_7d r;
     col_mc_volume_ratio := col_mc_volume_ratio r |}.

(** Python's [set(...)], [s.intersection(t, ...)] with iterables as
    arguments, [s.union(t)] and [s.difference(t)]. *)
Definition set_ (keys : list string) : gset string := list_to_set keys.

Definition intersection (s : gset string) (others : list (list string)) : gset string :=
  foldl (fun acc other => acc ∩ set_ other) s others.

Definition union (s t : gset string) : gset string := s ∪ t.

Definition difference (s t : gset string) : gset string := s ∖ t.

(** The two consensus expressions of [main], as functions of the three
    [Token] columns they read. *)
Definition in_all_plots (a b c : list string) : gset string :=
  intersection (set_ a) [b; c].

Definition in_two_plots (a b c : list string) : gset string :=
  difference
    (union (union (intersection (set_ a) [b]) (intersection (set_ b) [c]))
           (intersection (set_ c) [a]))
    (in_all_plots a b c).

(** What [main] shows for a frame that is not empty. *)
Record report : Type := {
  df_sorted : list row;
  df_sorted_7d : list row;
  df_sorted_mc_vol : list row;
  tokens_in_all_plots : gset string;
  tokens_in_two_plots : gset string
}.

Definition rankings `{Sorter} (df : list row) : report :=
  let df_sorted := head 30 (sort_values Potential_Gains_x false df) in
  let df_sorted := map cap_gains df_sorted in
  let df_sorted_7d := head 30 (sort_values Price_Change_7D_pct false df) in
  let df_sorted_mc_vol := head 30 (sort_values MC_Volume_Ratio_col true df) in
  {| df_sorted := df_sorted;
     df_sorted_7d := df_sorted_7d;
     df_sorted_mc_vol := df_sorted_mc_vol;
     tokens_in_all_plots :=
       in_all_plots (map Token df_sorted) (map Token df_sorted_7d)
                    (map Token df_sorted_mc_vol);
     tokens_in_two_plots :=
       in_two_plots (map Token df_sorted) (map Token df_sorted_7d)
                    (map Token df_sorted_mc_vol) |}.

(** [if not df.empty: ... else: "No tokens match the selected filters"] *)
Definition show_results `{Sorter} (df : list row) : option report :=
  match df with
  | [] => None
  | _ => Some (rankings df)
  end.

(** A sorter to run the program with: insertion sort, which keeps ties
    in the order of the frame. *)
Definition cell_leb (ascending : bool) (a b : option Q) : bool :=
  match a, b with
  | Some x, Some y => if ascending then Qle_bool x y else Qle_bool y x
  | _, None => true
  | None, Some _ => false
  end.

Fixpoint insert_row (by_ : sort_column) (ascending : bool) (r : row) (sorted : list row)
  : list row :=
  match sorted with
  | [] => [r]
  | x :: rest =>
      if cell_leb ascending (cell by_ r) (cell by_ x) then r :: sorted
      else x :: insert_row by_ ascending r rest
  end.

Definition insertion_sort (by_ : sort_column) (ascending : bool) (df : list row)
  : list row :=
  foldr (insert_row by_ ascending) [] df.

(** ** The consensus sets in the words of the specification

    [set_A], [set_B] and [set_C] are the display keys of the un-capped
    potential-gain top 30, of the 7-day top 30 and of the mc/volume top
    30; [all_three] is their intersection and [exactly_two] the union of
    the pairwise intersections without [all_three]. *)

Definition spec_top30_keys `{Sorter} (by_ : sort_column) (ascending : bool)
    (df : list row) : gset string :=
  list_to_set (map Token (take 30 (sort_values by_ ascending df))).

Definition spec_all_three (set_A set_B set_C : gset string) : gset string :=
  set_A ∩ set_B ∩ set_C.

Definition spec_exactly_two (set_A set_B set_C : gset string) : gset string :=
  ((set_A ∩ set_B) ∪ (set_B ∩ set_C) ∪ (set_C ∩ set_A))
  ∖ spec_all_three set_A set_B set_C.

(** ** Sample data

    The scenario of the specification: asset X with price 10, all-time
    high 50, volume 0, market cap 1e9 and a 7-day change of 20, under the
    thresholds 0, 1e12 and -1; and a record without its [ath] field. *)

Definition scenario_cfg : config :=
  {| market_cap_min := 0; market_cap_max := 1000000000000; volume_min := -1 |}.

Definition token_X : value :=
  VDict [("name", VStr "Xcoin"); ("symbol", VStr "xco");
         ("current_price", VNum 10); ("ath", VNum 50);
         ("total_volume", VNum 0); ("market_cap", VNum 1000000000);
         ("price_change_percentage_7d_in_currency", VNum 20)].

Definition scored_X : scored :=
  {| Token_Name := VStr "Xcoin";
     Symbol := "XCO";
     Current_Price := VNum 10;
     ATH := VNum 50;
     Potential_Gains := VNum (50 / 10);
     Market_Cap := VNum 1000000000;
     Volume := VNum 0;
     Price_Change_7D := VNum 20;
     MC_Volume_Ratio := VNum 0 |}.

Definition row_X : row :=
  {| col_token_name := "Xcoin";
     col_symbol := "XCO";
     col_current_price := 10;
     col_ath := 50;
     col_potential_gains := 50 / 10;
     col_market_cap := 1000000000;
     col_volume := 0;
     col_price_change_7d := Some 20%Q;
     col_mc_volume_ratio := 0 |}.

Definition entries_without_ath : list (string * value) :=
  [("name", VStr "Ycoin"); ("symbol", VStr "yco"); ("current_price", VNum 2);
   ("total_volume", VNum 5000000); ("market_cap", VNum 300000000);
   ("price_change_percentage_7d_in_currency", VNone)].

(** Two records whose symbols are stablecoin names in other cases, and
    a provider that serves them on page 1 and nothing on the others. *)
Definition token_USDT : value :=
  VDict [("name", VStr "Tether"); ("symbol", VStr "USDT")].

Definition token_Dai : value :=
  VDict [("name", VStr "Dai"); ("symbol", VStr "Dai")].

Definition fetch_upper_case (page : Z) : response :=
  if (page =? 1)%Z then Body (VList [token_USDT; token_Dai]) else Body (VList []).

(** The numeric fields [main] reads from every token. *)
Definition required_numeric_fields : list string :=
  ["current_price"; "ath"; "total_volume"; "market_cap";
   "price_change_percentage_7d_in_currency"].

(** ** The rest of [main] and of [get_top_tokens] *)

(** The objects a [for] loop accepts: lists, dictionaries and strings. *)
Definition iterable (v : value) : bool :=
  match v with
  | VList _ | VDict _ | VStr _ => true
  | _ => false
  end.

(** What one page adds to [tokens]: nothing to add when the body does not
    parse ([None], the function returns the empty list), else the kept
    items of the body, or the exception that ends the function. *)
Definition page_kept (r : response) : option (M (list value)) :=
  match r with
  | Fails e => Some (raise e)
  | BadBody => None
  | Body page_tokens =>
      Some (items <- iterate page_tokens ;; ret (List.filter keep_token items))
  end.

(** [main] from the fetch to the end of the loop:
    [top_tokens = get_top_tokens()] and the loop that fills [results]. *)
Definition filtered_results `{Py : Python} (cfg : config) (fetch : Z -> response)
  : M (list scored) :=
  top_tokens <- get_top_tokens fetch ;;
  process_tokens cfg top_tokens [].

(** What [n / d if d > 0 else 0] evaluates to on two numbers: the float
    of the quotient for a positive [d], and 0 else; [None] when the
    division raises [OverflowError]. *)
Definition guarded_quotient `{Py : Python} (n d : number) : option number :=
  if number_ltb (Fin 0) d then truediv n d else Some (Fin 0).

(** The values the three sliders of [main] can take:
    [st.slider(label, 100000, 10000000000, ...)] twice and
    [st.slider(label, 100000, 1000000000, ...)]. *)
Definition slider_range (cfg : config) : Prop :=
  (100000 <= market_cap_min cfg /\ market_cap_min cfg <= 10000000000)%Q /\
  (100000 <= market_cap_max cfg /\ market_cap_max cfg <= 10000000000)%Q /\
  (100000 <= volume_min cfg /\ volume_min cfg <= 1000000000)%Q.

(** The sliders at their defaults. *)
Definition default_cfg : config :=
  {| market_cap_min := 100000000;
     market_cap_max := 10000000000;
     volume_min := 1000000 |}.

(** A provider whose first page holds a record without its [ath]. *)
Definition fetch_missing_ath (page : Z) : response :=
  if (page =? 1)%Z then Body (VList [token_X; VDict entries_without_ath])
  else Body (VList []).

(** Thresholds wider than the defaults. *)
Definition wide_cfg : config :=
  {| market_cap_min := 100000;
     market_cap_max := 10000000000;
     volume_min := 100000 |}.

(** Records of the shape of [token_Z] with a [null] symbol, and with a
    price of 0 and a [null] all-time high. *)
Definition entries_null_symbol : list (string * value) :=
  [("name", VStr "Zcoin"); ("symbol", VNone);
   ("current_price", VNum 2); ("ath", VNum 8);
   ("total_volume", VNum 5000000); ("market_cap", VNum 300000000);
   ("price_change_percentage_7d_in_currency", VNone)].

Definition entries_zero_price : list (string * value) :=
  [("name", VStr "Zcoin"); ("symbol", VNone);
   ("current_price", VNum 0); ("ath", VNone);
   ("total_volume", VNum 5000000); ("market_cap", VNum 300000000);
   ("price_change_percentage_7d_in_currency", VNone)].

(** Sliders crossed: the minimum above the maximum. *)
Definition crossed_cfg : config :=
  {| market_cap_min := 5000000000;
     market_cap_max := 100000;
     volume_min := 100000 |}.

(** The seven keys the loop reads from a token, in the order it reads
    them. *)
Definition token_fields : list string :=
  ["name"; "symbol"; "current_price"; "ath"; "total_volume"; "market_cap";
   "price_change_percentage_7d_in_currency"].

(** More sample data: an asset within the default sliders, one whose
    volume is [null], and pages of several shapes. *)
Definition token_Z : value :=
  VDict [("name", VStr "Zcoin"); ("symbol", VStr "zco");
         ("current_price", VNum 2); ("ath", VNum 8);
         ("total_volume", VNum 5000000); ("market_cap", VNum 300000000);
         ("price_change_percentage_7d_in_currency", VNone)].

Definition scored_Z : scored :=
  {| Token_Name := VStr "Zcoin";
     Symbol := "ZCO";
     Current_Price := VNum 2;
     ATH := VNum 8;
     Potential_Gains := VNum (8 / 2);
     Market_Cap := VNum 300000000;
     Volume := VNum 5000000;
     Price_Change_7D := VNone;
     MC_Volume_Ratio := VNum (300000000 / 5000000) |}.

Definition row_Z : row :=
  {| col_token_name := "Zcoin";
     col_symbol := "ZCO";
     col_current_price := 2;
     col_ath := 8;
     col_potential_gains := 8 / 2;
     col_market_cap := 300000000;
     col_volume := 5000000;
     col_price_change_7d := None;
     col_mc_volume_ratio := 300000000 / 5000000 |}.

Definition entries_null_volume : list (string * value) :=
  [("name", VStr "Ncoin"); ("symbol", VStr "nco");
   ("current_price", VNum 2); ("ath", VNum 8);
   ("total_volume", VNone); ("market_cap", VNum 300000000);
   ("price_change_percentage_7d_in_currency", VNum 1)].

Definition error_body : value :=
  VDict [("status", VDict [("error_code", VNum 429)])].

Definition fetch_two_pages (page : Z) : response :=
  if (page =? 1)%Z then Body (VList [token_X; VNone; token_USDT])
  else if (page =? 2)%Z then Body (VList [token_Z; token_X])
  else Body (VList []).

Definition fetch_bad_third (page : Z) : response :=
  if (page =? 3)%Z then BadBody else Body (VList [token_X]).

Definition fetch_limited_second (page : Z) : response :=
  if (page =? 2)%Z then Body error_body else fetch_two_pages page.

Definition fetch_two_pages_empty_second (page : Z) : response :=
  if (page =? 2)%Z then Body (VList []) else fetch_two_pages page.

Definition fetch_null_second (page : Z) : response :=
  if (page =? 2)%Z then Body VNone else Body (VList [token_X]).

(** * Properties *)

(** ** Comparisons of rationals *)

Lemma Qltb_lt (x y : Q) : Qltb x y = true <-> (x < y)%Q.
Proof.
  unfold Qltb. rewrite Qlt_alt.
  destruct (x ?= y)%Q; split; intro E; congruence.
Qed.

Lemma Qltb_ge (x y : Q) : Qltb x y = false <-> (y <= x)%Q.
Proof.
  split; intro E.
  - apply Qnot_lt_le. intro L. apply Qltb_lt in L. congruence.
  - destruct (Qltb x y) eqn:L; [| reflexivity].
    apply Qltb_lt in L. exfalso. exact (Qlt_not_le _ _ L E).
Qed.

Lemma Qeq_bool_false_of_pos (x : Q) : (0 < x)%Q -> Qeq_bool x 0 = false.
Proof.
  intro P. destruct (Qeq_bool x 0) eqn:E; [| reflexivity].
  apply Qeq_bool_eq in E. rewrite E in P. exfalso. exact (Qlt_irrefl _ P).
Qed.

(** ** Numbers, and an instance of the interpreter *)

Lemma number_ltb_fin (x y : Q) : number_ltb (Fin x) (Fin y) = Qltb x y.
Proof. reflexivity. Qed.

Lemma positive_not_zero (y : number) : positive_number y -> is_zero y = false.
Proof.
  unfold positive_number. destruct y as [q | negative |]; simpl; try reflexivity.
  intro L. apply Qltb_lt in L. apply Qeq_bool_false_of_pos, L.
Qed.

Lemma exact_quotient_nonnegative (x : Q) (y r : number) :
  (0 <= x)%Q -> positive_number y ->
  exact_quotient (Fin x) y = Some r -> nonnegative r.
Proof.
  unfold positive_number. intros Hx Hy.
  destruct y as [q | negative |]; simpl in *; try discriminate.
  - intros [= <-]. simpl. apply Qltb_lt in Hy.
    apply Qle_shift_div_l; [exact Hy |]. rewrite Qmult_0_l. exact Hx.
  - intros [= <-]. simpl. apply Qle_refl.
Qed.

Lemma exact_quotient_le_one (x y : Q) (r : number) :
  (0 < y)%Q -> (x <= y)%Q ->
  exact_quotient (Fin x) (Fin y) = Some r -> number_ltb (Fin 1) r = false.
Proof.
  intros Hy Hxy [= <-]. simpl. apply Qltb_ge.
  apply Qle_shift_div_r; [exact Hy |]. rewrite Qmult_1_l. exact Hxy.
Qed.

#[global] Instance exact_arithmetic : Python :=
  {| truediv := exact_quotient;
     str_upper := upper;
     truediv_nonnegative := exact_quotient_nonnegative;
     truediv_le_one := exact_quotient_le_one;
     str_upper_ascii := fun s _ => eq_refl |}.

(** ** The monad *)

Lemma bind_ret {A B} (a : A) (f : A -> M B) : bind (ret a) f = f a.
Proof. unfold bind, ret. destruct (f a) as [ds r]. reflexivity. Qed.

Lemma bind_raise {A B} (e : exn) (f : A -> M B) : bind (raise e) f = raise e.
Proof. reflexivity. Qed.

Lemma bind_assoc {A B C} (m : M A) (f : A -> M B) (g : B -> M C) :
  bind (bind m f) g = bind m (fun a => bind (f a) g).
Proof.
  destruct m as [ds [a | e]]; simpl; [| reflexivity].
  destruct (f a) as [ds1 [b | e1]]; simpl; [| reflexivity].
  destruct (g b) as [ds2 r]. rewrite app_assoc. reflexivity.
Qed.

Lemma result_bind_returns {A B} (m : M A) (f : A -> M B) (b : B) :
  result (bind m f) = Returns b ->
  exists a, result m = Returns a /\ result (f a) = Returns b.
Proof.
  destruct m as [ds [a | e]]; simpl.
  - destruct (f a) as [ds1 r] eqn:E. simpl. intros ->.
    exists a. rewrite E. split; reflexivity.
  - discriminate.
Qed.

Lemma result_bind_raises_l {A B} (m : M A) (f : A -> M B) (e : exn) :
  result m = Raises e -> result (bind m f) = Raises e.
Proof. destruct m as [ds [a | e1]]; simpl; [discriminate | intros [= ->]; reflexivity]. Qed.

Lemma result_bind_returns_l {A B} (m : M A) (f : A -> M B) (a : A) :
  result m = Returns a -> result (bind m f) = result (f a).
Proof.
  destruct m as [ds [a1 | e1]]; simpl; [| discriminate].
  intros [= ->]. destruct (f a). reflexivity.
Qed.

Lemma denominators_bind {A B} (m : M A) (f : A -> M B) (P : number -> Prop) :
  Forall P (denominators m) ->
  (forall a, Forall P (denominators (f a))) ->
  Forall P (denominators (bind m f)).
Proof.
  destruct m as [ds [a | e]]; simpl; intros Hm Hf; [| exact Hm].
  specialize (Hf a). destruct (f a) as [ds1 r]. simpl in *.
  apply Forall_app. split; assumption.
Qed.

(** ** The two guarded divisions *)

Lemma py_gt_num (x y : Q) : py_gt (VNum x) (VNum y) = ret (Qltb y x).
Proof. reflexivity. Qed.

Lemma py_lt_num (x y : Q) : py_lt (VNum x) (VNum y) = ret (Qltb x y).
Proof. reflexivity. Qed.


(** Whatever the operands, a comparison divides nothing. *)
Lemma denominators_py_lt (a b : value) : denominators (py_lt a b) = [].
Proof. unfold py_lt. destruct (to_number a), (to_number b); reflexivity. Qed.

(** [guarded_div n d] is the shape both metrics have:
    [n / d if d > 0 else 0]. *)
Lemma guarded_division_positive `{Py : Python} (n d : value) :
  Forall positive_number
    (denominators (positive <- py_gt d (VNum 0) ;;
                   if positive : bool then py_truediv n d else ret (VNum 0))).
Proof.
  unfold py_gt, py_lt. cbn [to_number].
  destruct (to_number d) as [y |] eqn:Ed; [| constructor].
  rewrite bind_ret.
  destruct (number_ltb (Fin 0) y) eqn:L; [| constructor].
  unfold py_truediv. rewrite Ed.
  destruct (to_number n) as [x |]; [| constructor].
  rewrite (positive_not_zero y L).
  destruct (truediv x y); simpl; (constructor; [exact L | constructor]).
Qed.

Lemma guarded_division_no_zero_division `{Py : Python} (n d : value) :
  result (positive <- py_gt d (VNum 0) ;;
          if positive : bool then py_truediv n d else ret (VNum 0))
  <> Raises ZeroDivisionError.
Proof.
  unfold py_gt, py_lt. cbn [to_number].
  destruct (to_number d) as [y |] eqn:Ed; [| discriminate].
  rewrite bind_ret.
  destruct (number_ltb (Fin 0) y) eqn:L; [| discriminate].
  unfold py_truediv. rewrite Ed.
  destruct (to_number n) as [x |]; [| discriminate].
  rewrite (positive_not_zero y L).
  destruct (truediv x y); simpl; discriminate.
Qed.




(** ** The threshold condition *)

Lemma passes_filters_num (cfg : config) (market_cap volume potential_gains : Q) :
  passes_filters cfg (VNum market_cap) (VNum volume) (VNum potential_gains)
  = ret (Qltb (market_cap_min cfg) market_cap
         && Qltb market_cap (market_cap_max cfg)
         && Qltb (volume_min cfg) volume
         && Qltb 1 potential_gains).
Proof.
  unfold passes_filters.
  rewrite py_lt_num, bind_ret.
  destruct (Qltb (market_cap_min cfg) market_cap); [| reflexivity].
  cbn [negb andb]. rewrite py_lt_num, bind_ret.
  destruct (Qltb market_cap (market_cap_max cfg)); [| reflexivity].
  cbn [negb andb]. rewrite py_gt_num, bind_ret.
  destruct (Qltb (volume_min cfg) volume); [| reflexivity].
  cbn [negb andb]. apply py_gt_num.
Qed.


(** ** Computations that divide nothing *)

Lemma M_eta {A} (m : M A) : m = (denominators m, result m).
Proof. destruct m. reflexivity. Qed.

Lemma no_division_bind {A B} (m : M A) (f : A -> M B) :
  denominators m = [] ->
  (forall a, denominators (f a) = []) ->
  denominators (bind m f) = [].
Proof.
  destruct m as [ds [a | e]]; simpl; intros -> Hf; [| reflexivity].
  specialize (Hf a). destruct (f a) as [ds1 r]. exact Hf.
Qed.

Lemma bind_ext {A B} (m : M A) (f g : A -> M B) :
  (forall a, f a = g a) -> bind m f = bind m g.
Proof. intro E. destruct m as [ds [a | e]]; simpl; [rewrite E |]; reflexivity. Qed.

Lemma denominators_subscript (token : value) (key : string) :
  denominators (subscript token key) = [].
Proof.
  destruct token; try reflexivity.
  simpl. unfold getitem. destruct (dict_get key entries); reflexivity.
Qed.

Lemma denominators_py_upper `{Py : Python} (v : value) : denominators (py_upper v) = [].
Proof. destruct v; reflexivity. Qed.

Lemma denominators_passes_filters (cfg : config) (market_cap volume potential_gains : value) :
  denominators (passes_filters cfg market_cap volume potential_gains) = [].
Proof.
  unfold passes_filters, py_gt.
  apply no_division_bind; [apply denominators_py_lt | intros [|]; [| reflexivity]].
  apply no_division_bind; [apply denominators_py_lt | intros [|]; [| reflexivity]].
  apply no_division_bind; [apply denominators_py_lt | intros [|]; [| reflexivity]].
  apply denominators_py_lt.
Qed.

Lemma denominators_threshold_filter (cfg : config) (assets : list scored) :
  denominators (threshold_filter cfg assets) = [].
Proof.
  induction assets as [| s rest IH]; [reflexivity |]. simpl.
  apply no_division_bind; [apply denominators_passes_filters | intro keep].
  apply no_division_bind; [exact IH | intro kept]. reflexivity.
Qed.

Lemma no_division_returns {A} (m : M A) (a : A) :
  denominators m = [] -> result m = Returns a -> m = ret a.
Proof. intros Hd Hr. rewrite (M_eta m), Hd, Hr. reflexivity. Qed.

(** ** The loop over the tokens *)

Lemma process_token_divisions `{Py : Python} (cfg : config) (token : value) :
  Forall positive_number (denominators (process_token cfg token)).
Proof.
  unfold process_token.
  do 7 (apply denominators_bind;
        [rewrite denominators_subscript; constructor | intro]).
  apply denominators_bind; [apply guarded_division_positive | intro ratio].
  apply denominators_bind; [apply guarded_division_positive | intro gains].
  apply denominators_bind;
    [rewrite denominators_passes_filters; constructor | intros [|]].
  - apply denominators_bind;
      [rewrite denominators_py_upper; constructor | intro; constructor].
  - constructor.
Qed.

Lemma process_tokens_divisions `{Py : Python} (cfg : config) (top_tokens : list value)
    (results : list scored) :
  Forall positive_number (denominators (process_tokens cfg top_tokens results)).
Proof.
  revert results. induction top_tokens as [| token rest IH]; intro results.
  - constructor.
  - simpl. apply denominators_bind; [apply process_token_divisions |].
    intro r. apply IH.
Qed.

(** What is known of an asset the loop appended: it passed the condition,
    and its two metrics are the ones computed from its own columns. *)
Definition well_scored `{Py : Python} (cfg : config) (s : scored) : Prop :=
  passes cfg s = ret true /\
  result (mc_vol_ratio (Market_Cap s) (Volume s)) = Returns (MC_Volume_Ratio s) /\
  result (calculate_potential_gains (Current_Price s) (ATH s))
  = Returns (Potential_Gains s).

Lemma process_token_kept `{Py : Python} (cfg : config) (token : value) (s : scored) :
  result (process_token cfg token) = Returns (Some s) -> well_scored cfg s.
Proof.
  unfold process_token. intro H.
  apply result_bind_returns in H as (token_name & _ & H).
  apply result_bind_returns in H as (token_symbol & _ & H).
  apply result_bind_returns in H as (current_price & _ & H).
  apply result_bind_returns in H as (ath_price & _ & H).
  apply result_bind_returns in H as (volume & _ & H).
  apply result_bind_returns in H as (market_cap & _ & H).
  apply result_bind_returns in H as (price_change_7d & _ & H).
  apply result_bind_returns in H as (ratio & Hratio & H).
  apply result_bind_returns in H as (gains & Hgains & H).
  apply result_bind_returns in H as (keep & Hkeep & H).
  destruct keep; [| discriminate].
  apply result_bind_returns in H as (symbol & _ & H).
  simpl in H. injection H as <-.
  unfold well_scored, passes. simpl. repeat split; try assumption.
  apply no_division_returns; [apply denominators_passes_filters | exact Hkeep].
Qed.

Lemma process_tokens_results `{Py : Python} (cfg : config) (P : scored -> Prop) :
  (forall token s, result (process_token cfg token) = Returns (Some s) -> P s) ->
  forall top_tokens results0 results,
    Forall P results0 ->
    result (process_tokens cfg top_tokens results0) = Returns results ->
    Forall P results /\
    (length results <= length results0 + length top_tokens)%nat.
Proof.
  intros HP top_tokens.
  induction top_tokens as [| token rest IH]; intros results0 results H0 H.
  - simpl in H. injection H as <-. split; [assumption | lia].
  - simpl in H. apply result_bind_returns in H as (r & Hr & H).
    apply IH in H.
    + destruct H as [HF HL]. split; [exact HF |].
      destruct r; simpl in HL; [rewrite length_app in HL |]; simpl in *; lia.
    + destruct r as [s |]; simpl; [| assumption].
      apply Forall_app. split; [assumption |].
      constructor; [| constructor]. eapply HP, Hr.
Qed.

Lemma process_tokens_app `{Py : Python} (cfg : config) (before after : list value)
    (results : list scored) :
  process_tokens cfg (before ++ after) results
  = bind (process_tokens cfg before results) (process_tokens cfg after).
Proof.
  revert results. induction before as [| token rest IH]; intro results.
  - exact (eq_sym (bind_ret results (process_tokens cfg after))).
  - cbn [app process_tokens]. rewrite bind_assoc. apply bind_ext. intro r. apply IH.
Qed.

(** C10: a negative price sends [calculate_potential_gains] to its
    [return 0] and a negative volume sends the ratio to its [else 0],
    whatever the numerator is and without any division; and no division
    of the two metrics, nor of the whole loop over the tokens, is ever
    evaluated with a denominator that is not strictly positive (a
    positive rational, or the positive infinity). *)
Theorem nonpositive_denominator_never_divided `{Py : Python} :
  (forall (price : Q) (ath_price : value),
     (price < 0)%Q ->
     calculate_potential_gains (VNum price) ath_price = ret (VNum 0)) /\
  (forall (vol : Q) (market_cap : value),
     (vol < 0)%Q ->
     mc_vol_ratio market_cap (VNum vol) = ret (VNum 0)) /\
  (forall current_price ath_price : value,
     Forall positive_number
       (denominators (calculate_potential_gains current_price ath_price)) /\
     result (calculate_potential_gains current_price ath_price)
     <> Raises ZeroDivisionError) /\
  (forall market_cap volume : value,
     Forall positive_number (denominators (mc_vol_ratio market_cap volume)) /\
     result (mc_vol_ratio market_cap volume) <> Raises ZeroDivisionError) /\
  (forall (cfg : config) (top_tokens : list value),
     Forall positive_number (denominators (process_tokens cfg top_tokens []))).
Proof.
  split; [| split; [| split; [| split]]].
  - intros price ath_price N. unfold calculate_potential_gains.
    rewrite py_gt_num, bind_ret.
    assert (Qltb 0 price = false) as ->; [| reflexivity].
    apply Qltb_ge, Qlt_le_weak, N.
  - intros vol market_cap N. unfold mc_vol_ratio.
    rewrite py_gt_num, bind_ret.
    assert (Qltb 0 vol = false) as ->; [| reflexivity].
    apply Qltb_ge, Qlt_le_weak, N.
  - intros current_price ath_price. split.
    + apply guarded_division_positive.
    + apply guarded_division_no_zero_division.
  - intros market_cap volume. split.
    + apply guarded_division_positive.
    + apply guarded_division_no_zero_division.
  - intros cfg top_tokens. apply process_tokens_divisions.
Qed.

Lemma nonpositive_denominator_never_divided_witness :
  ((-3 < 0)%Q /\
   calculate_potential_gains (VNum (-3)) (VNum 50) = ret (VNum 0)) /\
  ((-(1 # 2) < 0)%Q /\
   mc_vol_ratio (VNum 1000) (VNum (-(1 # 2))) = ret (VNum 0)).
Proof.
  split; (split; [reflexivity |]).
  - apply (proj1 nonpositive_denominator_never_divided). reflexivity.
  - apply (proj1 (proj2 nonpositive_denominator_never_divided)). reflexivity.
Defined.

(** ** The threshold filter *)

Lemma threshold_filter_returns (cfg : config) (assets kept : list scored) :
  result (threshold_filter cfg assets) = Returns kept ->
  Forall (fun s => passes cfg s = ret true) kept /\
  (length kept <= length assets)%nat.
Proof.
  revert kept. induction assets as [| s rest IH]; intros kept H.
  - simpl in H. injection H as <-. split; [constructor | lia].
  - simpl in H.
    apply result_bind_returns in H as (keep & Hkeep & H).
    apply result_bind_returns in H as (kept' & Hrest & H).
    simpl in H. injection H as <-.
    destruct (IH kept' Hrest) as [HF HL].
    destruct keep; simpl; split; try lia; try assumption.
    constructor; [| assumption].
    apply no_division_returns; [apply denominators_passes_filters | exact Hkeep].
Qed.

Lemma threshold_filter_fixed (cfg : config) (assets : list scored) :
  Forall (fun s => passes cfg s = ret true) assets ->
  threshold_filter cfg assets = ret assets.
Proof.
  induction 1 as [| s rest Hs _ IH]; [reflexivity |].
  simpl. rewrite Hs, bind_ret, IH, bind_ret. reflexivity.
Qed.

(** The columns the condition reads hold numbers. *)
Definition numeric_columns (s : scored) : Prop :=
  exists market_cap volume potential_gains : Q,
    Market_Cap s = VNum market_cap /\ Volume s = VNum volume /\
    Potential_Gains s = VNum potential_gains.

Lemma threshold_filter_total (cfg : config) (assets : list scored) :
  Forall numeric_columns assets ->
  exists kept, threshold_filter cfg assets = ret kept.
Proof.
  induction 1 as [| s rest (c & v & g & Ec & Ev & Eg) _ [kept IH]].
  - exists []. reflexivity.
  - simpl. unfold passes. rewrite Ec, Ev, Eg, passes_filters_num, bind_ret.
    rewrite IH, bind_ret. eexists. reflexivity.
Qed.

(** C7: filtering what the threshold filter returned once more changes
    nothing (also when it raises), its result is never longer than its
    input, and on assets with numbers in the columns it reads it does
    return. The list the loop of [main] builds is such a result: the
    filter leaves it as it is, and it is no longer than the list of
    tokens. *)
Theorem threshold_filter_idempotent `{Py : Python} (cfg : config) (assets : list scored) :
  (kept <- threshold_filter cfg assets ;; threshold_filter cfg kept)
  = threshold_filter cfg assets /\
  (forall kept, result (threshold_filter cfg assets) = Returns kept ->
     (length kept <= length assets)%nat) /\
  (Forall numeric_columns assets ->
     exists kept, threshold_filter cfg assets = ret kept /\
                  threshold_filter cfg kept = ret kept) /\
  (forall top_tokens,
     result (process_tokens cfg top_tokens []) = Returns assets ->
     threshold_filter cfg assets = ret assets /\
     (length assets <= length top_tokens)%nat).
Proof.
  split; [| split; [| split]].
  - pose proof (denominators_threshold_filter cfg assets) as Hd.
    destruct (threshold_filter cfg assets) as [ds [kept | e]] eqn:H;
      simpl in Hd; subst ds; [| reflexivity].
    change (@pair (list number) (outcome (list scored)) [] (Returns kept)) with (ret kept).
    rewrite bind_ret. apply threshold_filter_fixed.
    apply (threshold_filter_returns cfg assets kept). rewrite H. reflexivity.
  - intros kept H. apply (threshold_filter_returns cfg assets kept H).
  - intro Hnum. destruct (threshold_filter_total cfg assets Hnum) as [kept H].
    exists kept. split; [exact H |].
    apply threshold_filter_fixed.
    apply (threshold_filter_returns cfg assets kept). rewrite H. reflexivity.
  - intros top_tokens H.
    destruct (process_tokens_results cfg (well_scored cfg)
                (process_token_kept cfg) top_tokens [] assets) as [HF HL];
      [constructor | exact H |].
    split; [| simpl in HL; lia].
    apply threshold_filter_fixed.
    eapply Forall_impl; [exact HF |]. intros s Hs. apply Hs.
Qed.


Lemma threshold_filter_idempotent_witness :
  (Forall numeric_columns [scored_X; scored_X] /\
   exists kept, threshold_filter scenario_cfg [scored_X; scored_X] = ret kept /\
                threshold_filter scenario_cfg kept = ret kept) /\
  (result (process_tokens scenario_cfg [token_X] []) = Returns [scored_X] /\
   threshold_filter scenario_cfg [scored_X] = ret [scored_X] /\
   (length [scored_X] <= length [token_X])%nat).
Proof.
  assert (Forall numeric_columns [scored_X; scored_X]) as Hnum.
  { repeat constructor;
      exists 1000000000%Q, 0%Q, (50 / 10)%Q; repeat split; reflexivity. }
  split.
  - split; [exact Hnum |].
    apply (proj1 (proj2 (proj2
             (threshold_filter_idempotent scenario_cfg [scored_X; scored_X])))).
    exact Hnum.
  - split; [reflexivity |].
    apply (proj2 (proj2 (proj2
             (threshold_filter_idempotent scenario_cfg [scored_X]))) [token_X]).
    reflexivity.
Defined.

(** ** Missing fields *)

Lemma process_token_missing_field `{Py : Python} (cfg : config) (token : list (string * value))
    (field : string) :
  In field required_numeric_fields ->
  dict_get field token = None ->
  exists key, dict_get key token = None /\
              result (process_token cfg (VDict token)) = Raises (KeyError key).
Proof.
  intros Hin Hnone. unfold process_token, subscript, getitem.
  destruct (dict_get "name" token) eqn:E1;
    [rewrite bind_ret | exists "name"; split; [exact E1 | reflexivity]].
  destruct (dict_get "symbol" token) eqn:E2;
    [rewrite bind_ret | exists "symbol"; split; [exact E2 | reflexivity]].
  destruct (dict_get "current_price" token) eqn:E3;
    [rewrite bind_ret | exists "current_price"; split; [exact E3 | reflexivity]].
  destruct (dict_get "ath" token) eqn:E4;
    [rewrite bind_ret | exists "ath"; split; [exact E4 | reflexivity]].
  destruct (dict_get "total_volume" token) eqn:E5;
    [rewrite bind_ret | exists "total_volume"; split; [exact E5 | reflexivity]].
  destruct (dict_get "market_cap" token) eqn:E6;
    [rewrite bind_ret | exists "market_cap"; split; [exact E6 | reflexivity]].
  destruct (dict_get "price_change_percentage_7d_in_currency" token) eqn:E7;
    [| exists "price_change_percentage_7d_in_currency";
       split; [exact E7 | reflexivity]].
  exfalso. simpl in Hin.
  destruct Hin as [<- | [<- | [<- | [<- | [<- | []]]]]]; congruence.
Qed.

(** C9: when the loop of [main] reaches a record that lacks one of the
    numeric fields it reads, the run ends there with Python's
    missing-key exception ([KeyError], for a key the record does not
    have), whatever records follow: the record is neither skipped nor
    repaired. *)
Theorem missing_field_is_fatal `{Py : Python} (cfg : config) (before after : list value)
    (token : list (string * value)) (results : list scored) (field : string) :
  In field required_numeric_fields ->
  dict_get field token = None ->
  result (process_tokens cfg before []) = Returns results ->
  exists key,
    dict_get key token = None /\
    result (process_tokens cfg (before ++ VDict token :: after) [])
    = Raises (KeyError key).
Proof.
  intros Hin Hnone Hbefore.
  destruct (process_token_missing_field cfg token field Hin Hnone)
    as (key & Hkey & Hraise).
  exists key. split; [exact Hkey |].
  rewrite process_tokens_app.
  rewrite (result_bind_returns_l _ _ results Hbefore).
  cbn [process_tokens]. apply result_bind_raises_l. exact Hraise.
Qed.

Lemma missing_field_is_fatal_witness :
  exists key,
    dict_get key entries_without_ath = None /\
    result (process_tokens scenario_cfg
              ([token_X] ++ VDict entries_without_ath :: [token_X]) [])
    = Raises (KeyError key).
Proof.
  apply (missing_field_is_fatal scenario_cfg [token_X] [token_X]
           entries_without_ath [scored_X] "ath").
  - simpl. tauto.
  - reflexivity.
  - reflexivity.
Defined.

(** ** From the appended assets to the rows of the frame *)







(** ** Insertion sort is a sorter *)

Lemma cell_leb_le (ascending : bool) (a b : option Q) :
  cell_leb ascending a b = true -> cell_le ascending a b.
Proof.
  destruct a as [x |], b as [y |], ascending; simpl;
    try (intro E; apply Qle_bool_iff in E; exact E); try discriminate; auto.
Qed.

Lemma cell_leb_total (ascending : bool) (a b : option Q) :
  cell_leb ascending a b = false -> cell_le ascending b a.
Proof.
  destruct a as [x |], b as [y |], ascending; simpl;
    try discriminate; auto;
    intro E; apply Qlt_le_weak, Qnot_le_lt; intro L;
    apply Qle_bool_iff in L; congruence.
Qed.

Lemma insert_row_perm (by_ : sort_column) (ascending : bool) (r : row)
    (l : list row) :
  Permutation (insert_row by_ ascending r l) (r :: l).
Proof.
  induction l as [| x rest IH]; simpl; [reflexivity |].
  destruct (cell_leb ascending (cell by_ r) (cell by_ x)); [reflexivity |].
  rewrite IH. apply perm_swap.
Qed.

Lemma insert_row_hd (by_ : sort_column) (ascending : bool) (x r : row)
    (l : list row) :
  in_order by_ ascending x r ->
  HdRel (in_order by_ ascending) x l ->
  HdRel (in_order by_ ascending) x (insert_row by_ ascending r l).
Proof.
  intros Hxr Hxl. destruct l as [| y rest]; simpl.
  - constructor. exact Hxr.
  - destruct (cell_leb ascending (cell by_ r) (cell by_ y)); constructor.
    + exact Hxr.
    + inversion Hxl; assumption.
Qed.

Lemma insert_row_sorted (by_ : sort_column) (ascending : bool) (r : row)
    (l : list row) :
  Sorted (in_order by_ ascending) l ->
  Sorted (in_order by_ ascending) (insert_row by_ ascending r l).
Proof.
  induction 1 as [| x rest Hrest IH Hhd]; simpl.
  - repeat constructor.
  - destruct (cell_leb ascending (cell by_ r) (cell by_ x)) eqn:E.
    + constructor; [constructor; assumption |].
      constructor. apply cell_leb_le, E.
    + constructor; [exact IH |].
      apply insert_row_hd; [| exact Hhd]. apply cell_leb_total, E.
Qed.

Lemma insertion_sort_perm (by_ : sort_column) (ascending : bool) (df : list row) :
  Permutation (insertion_sort by_ ascending df) df.
Proof.
  induction df as [| r rest IH]; simpl; [reflexivity |].
  rewrite insert_row_perm. constructor. exact IH.
Qed.

Lemma insertion_sort_sorted (by_ : sort_column) (ascending : bool) (df : list row) :
  Sorted (in_order by_ ascending) (insertion_sort by_ ascending df).
Proof.
  induction df as [| r rest IH]; simpl; [constructor |].
  apply insert_row_sorted, IH.
Qed.

Definition insertion_sorter : Sorter :=
  {| sort_values := insertion_sort;
     sort_values_perm := insertion_sort_perm;
     sort_values_sorted := insertion_sort_sorted |}.

(** ** The three rankings *)

Lemma Sorted_take {A} (R : A -> A -> Prop) (n : nat) (l : list A) :
  Sorted R l -> Sorted R (take n l).
Proof.
  intro H. revert n. induction H as [| x l Hl IH Hhd]; intro n.
  - destruct n; constructor.
  - destruct n as [| n]; simpl; [constructor |].
    constructor; [apply IH |].
    destruct Hhd as [| y l' Hxy]; [destruct n; constructor |].
    destruct n; constructor. exact Hxy.
Qed.

Lemma Sorted_map {A} (R : A -> A -> Prop) (f : A -> A) (l : list A) :
  (forall x y, R x y -> R (f x) (f y)) ->
  Sorted R l -> Sorted R (map f l).
Proof.
  intros Hf H. induction H as [| x l Hl IH Hhd]; simpl; [constructor |].
  constructor; [exact IH |].
  destruct Hhd as [| y l' Hxy]; simpl; constructor. apply Hf, Hxy.
Qed.

Lemma py_min_monotone (x y : Q) :
  (x <= y)%Q -> (py_min x 1000 <= py_min y 1000)%Q.
Proof.
  intro L. unfold py_min.
  destruct (Qltb 1000 x) eqn:Ex, (Qltb 1000 y) eqn:Ey.
  - apply Qle_refl.
  - apply Qltb_lt in Ex. apply Qltb_ge in Ey.
    exfalso. apply (Qlt_irrefl 1000).
    eapply Qlt_le_trans; [exact Ex |]. eapply Qle_trans; eassumption.
  - apply Qltb_ge in Ex. exact Ex.
  - exact L.
Qed.

Lemma cap_gains_in_order (r1 r2 : row) :
  in_order Potential_Gains_x false r1 r2 ->
  in_order Potential_Gains_x false (cap_gains r1) (cap_gains r2).
Proof. unfold in_order. simpl. apply py_min_monotone. Qed.

Lemma Token_cap_gains (l : list row) : map Token (map cap_gains l) = map Token l.
Proof. rewrite map_map. apply map_ext. intro r. reflexivity. Qed.

Lemma head_all `{Sorter} (by_ : sort_column) (ascending : bool) (df : list row) :
  (length df <= 30)%nat ->
  head 30 (sort_values by_ ascending df) = sort_values by_ ascending df.
Proof.
  intro L. unfold head. apply take_ge.
  rewrite (Permutation_length (sort_values_perm by_ ascending df)). exact L.
Qed.

Lemma head_30 `{Sorter} (by_ : sort_column) (ascending : bool) (df : list row) :
  length (head 30 (sort_values by_ ascending df)) = Nat.min 30 (length df).
Proof.
  unfold head. rewrite length_take.
  rewrite (Permutation_length (sort_values_perm by_ ascending df)). reflexivity.
Qed.

(** C8: each of the three tables [main] ranks has at most 30 rows, is in
    the order of its column, and has exactly 30 rows when the frame has
    more than 30; when the frame has 30 rows or fewer each table holds
    all the rows of the frame (for the potential-gain table: all of them
    with the gain capped at 1000). *)
Theorem ranking_engine_top_30 `{Sorter} (df : list row) :
  ((length (df_sorted (rankings df)) <= 30)%nat /\
   (length (df_sorted_7d (rankings df)) <= 30)%nat /\
   (length (df_sorted_mc_vol (rankings df)) <= 30)%nat) /\
  (Sorted (in_order Potential_Gains_x false) (df_sorted (rankings df)) /\
   Sorted (in_order Price_Change_7D_pct false) (df_sorted_7d (rankings df)) /\
   Sorted (in_order MC_Volume_Ratio_col true) (df_sorted_mc_vol (rankings df))) /\
  ((30 < length df)%nat ->
   length (df_sorted (rankings df)) = 30%nat /\
   length (df_sorted_7d (rankings df)) = 30%nat /\
   length (df_sorted_mc_vol (rankings df)) = 30%nat) /\
  ((length df <= 30)%nat ->
   Permutation (df_sorted (rankings df)) (map cap_gains df) /\
   Permutation (df_sorted_7d (rankings df)) df /\
   Permutation (df_sorted_mc_vol (rankings df)) df).
Proof.
  unfold rankings. cbn [df_sorted df_sorted_7d df_sorted_mc_vol].
  rewrite length_map, !head_30.
  split; [| split; [| split]].
  - repeat split; apply Nat.le_min_l.
  - repeat split.
    + apply Sorted_map; [exact cap_gains_in_order |].
      apply Sorted_take, sort_values_sorted.
    + apply Sorted_take, sort_values_sorted.
    + apply Sorted_take, sort_values_sorted.
  - intro L. repeat split; apply Nat.min_l; lia.
  - intro L. rewrite !head_all by exact L. repeat split.
    + apply Permutation_map, sort_values_perm.
    + apply sort_values_perm.
    + apply sort_values_perm.
Qed.

Lemma ranking_engine_top_30_witness :
  (length [row_X; row_X] <= 30)%nat /\
  Permutation (df_sorted (@rankings insertion_sorter [row_X; row_X]))
              (map cap_gains [row_X; row_X]) /\
  Permutation (df_sorted_7d (@rankings insertion_sorter [row_X; row_X]))
              [row_X; row_X] /\
  Permutation (df_sorted_mc_vol (@rankings insertion_sorter [row_X; row_X]))
              [row_X; row_X].
Proof.
  assert (length [row_X; row_X] <= 30)%nat as L by (simpl; lia).
  split; [exact L |].
  apply (proj2 (proj2 (proj2
           (@ranking_engine_top_30 insertion_sorter [row_X; row_X])))).
  exact L.
Defined.

(** ** The consensus sets *)

Lemma in_all_plots_spec (a b c : list string) :
  in_all_plots a b c = spec_all_three (set_ a) (set_ b) (set_ c).
Proof. reflexivity. Qed.

Lemma in_two_plots_spec (a b c : list string) :
  in_two_plots a b c = spec_exactly_two (set_ a) (set_ b) (set_ c).
Proof. reflexivity. Qed.

(** C3: for the three [Token] columns [a], [b] and [c] the consensus
    expressions of [main] read, with [set_A], [set_B] and [set_C] their
    sets, the first is [set_A ∩ set_B ∩ set_C] and the second is the
    union of the pairwise intersections without the first; the two are
    disjoint, and a key is in the second exactly when it is in two of
    the three sets and not in the third. *)
Theorem consensus_sets (a b c : list string) :
  in_all_plots a b c = set_ a ∩ set_ b ∩ set_ c /\
  in_two_plots a b c
  = ((set_ a ∩ set_ b) ∪ (set_ b ∩ set_ c) ∪ (set_ c ∩ set_ a))
    ∖ in_all_plots a b c /\
  in_all_plots a b c ## in_two_plots a b c /\
  (forall key,
     key ∈ in_two_plots a b c <->
     (key ∈ set_ a /\ key ∈ set_ b /\ key ∉ set_ c) \/
     (key ∈ set_ b /\ key ∈ set_ c /\ key ∉ set_ a) \/
     (key ∈ set_ c /\ key ∈ set_ a /\ key ∉ set_ b)).
Proof.
  rewrite in_two_plots_spec, in_all_plots_spec.
  unfold spec_exactly_two, spec_all_three.
  generalize (set_ a) (set_ b) (set_ c). intros A B C.
  split; [reflexivity |]. split; [reflexivity |]. split.
  - apply elem_of_disjoint. intros key Hall Htwo.
    apply elem_of_difference in Htwo. tauto.
  - intro key. rewrite elem_of_difference, !elem_of_union, !elem_of_intersection.
    destruct (decide (key ∈ A)), (decide (key ∈ B)), (decide (key ∈ C)); tauto.
Qed.

(** C2: the consensus sets [main] computes are the ones of the
    specification taken over the un-capped potential-gain top 30: the cap
    at 1000 is applied to the 30 rows already ranked, and leaves their
    display keys, and the order of the keys, as they were. *)
Theorem cap_is_display_only `{Sorter} (df : list row) :
  df_sorted (rankings df)
  = map cap_gains (head 30 (sort_values Potential_Gains_x false df)) /\
  map Token (df_sorted (rankings df))
  = map Token (head 30 (sort_values Potential_Gains_x false df)) /\
  tokens_in_all_plots (rankings df)
  = spec_all_three (spec_top30_keys Potential_Gains_x false df)
                   (spec_top30_keys Price_Change_7D_pct false df)
                   (spec_top30_keys MC_Volume_Ratio_col true df) /\
  tokens_in_two_plots (rankings df)
  = spec_exactly_two (spec_top30_keys Potential_Gains_x false df)
                     (spec_top30_keys Price_Change_7D_pct false df)
                     (spec_top30_keys MC_Volume_Ratio_col true df).
Proof.
  unfold rankings.
  cbn [df_sorted tokens_in_all_plots tokens_in_two_plots].
  rewrite in_all_plots_spec, in_two_plots_spec, !Token_cap_gains.
  repeat split; reflexivity.
Qed.

(** ** The stablecoin filter of [get_top_tokens] *)

Lemma not_in_stablecoins (symbol : value) :
  not_in symbol stablecoins = false <->
  exists s, symbol = VStr s /\
            (s = "usdt" \/ s = "usdc" \/ s = "dai" \/ s = "busd" \/ s = "ust").
Proof.
  unfold not_in. rewrite negb_false_iff, existsb_exists. split.
  - intros (name & Hin & Heq).
    destruct symbol as [| | | | | s | |]; simpl in Heq; try discriminate.
    apply String.eqb_eq in Heq. subst name. exists s. split; [reflexivity |].
    simpl in Hin. intuition.
  - intros (s & -> & Hs). exists s. split.
    + simpl. intuition.
    + simpl. apply String.eqb_refl.
Qed.

Lemma fetch_pages_kept (fetch : Z -> response) (pages : list Z)
    (tokens0 tokens : list value) :
  Forall (fun t => keep_token t = true) tokens0 ->
  result (fetch_pages fetch pages tokens0) = Returns tokens ->
  Forall (fun t => keep_token t = true) tokens.
Proof.
  revert tokens0. induction pages as [| page rest IH]; intros tokens0 H0 H.
  - simpl in H. injection H as <-. exact H0.
  - simpl in H. destruct (fetch page) as [e | | page_tokens].
    + discriminate.
    + simpl in H. injection H as <-. constructor.
    + apply result_bind_returns in H as (items & _ & H).
      apply (IH (tokens0 ++ List.filter keep_token items)); [| exact H].
      apply Forall_app. split; [exact H0 |].
      apply Forall_forall. intros t Ht.
      apply list_elem_of_In, filter_In in Ht. apply Ht.
Qed.

(** C1, as the code has it: the stablecoin test is an exact,
    case-sensitive comparison with the five lower-case names. A record is
    discarded exactly when it has no symbol or its symbol is one of the
    strings usdt, usdc, dai, busd, ust as written; the symbols "usdtx"
    and "USDT" are kept; and every token [get_top_tokens] returns passed
    this test. *)
Theorem stablecoin_exclusion_exact :
  (forall token : list (string * value),
     keep_token (VDict token) = false <->
     dict_get "symbol" token = None \/
     exists s, dict_get "symbol" token = Some (VStr s) /\
               (s = "usdt" \/ s = "usdc" \/ s = "dai" \/ s = "busd" \/ s = "ust")) /\
  (forall token : list (string * value),
     dict_get "symbol" token = Some (VStr "usdtx") -> keep_token (VDict token) = true) /\
  (forall token : list (string * value),
     dict_get "symbol" token = Some (VStr "USDT") -> keep_token (VDict token) = true) /\
  (forall (fetch : Z -> response) (tokens : list value),
     result (get_top_tokens fetch) = Returns tokens ->
     Forall (fun t => keep_token t = true) tokens).
Proof.
  split; [| split; [| split]].
  - intro token. simpl.
    destruct (dict_get "symbol" token) as [symbol |].
    + rewrite not_in_stablecoins. split.
      * intros (s & -> & Hs). right. exists s. split; [reflexivity | exact Hs].
      * intros [Hnone | (s & Hs & Hin)]; [discriminate |].
        injection Hs as ->. exists s. split; [reflexivity | exact Hin].
    + split; [left; reflexivity | reflexivity].
  - intros token H. simpl. rewrite H. reflexivity.
  - intros token H. simpl. rewrite H. reflexivity.
  - intros fetch tokens H.
    apply (fetch_pages_kept fetch [1; 2; 3; 4]%Z [] tokens); [constructor | exact H].
Qed.

Lemma stablecoin_exclusion_exact_witness :
  (dict_get "symbol" [("name", VStr "Tether X"); ("symbol", VStr "usdtx")]
   = Some (VStr "usdtx") /\
   keep_token (VDict [("name", VStr "Tether X"); ("symbol", VStr "usdtx")]) = true) /\
  (result (get_top_tokens fetch_upper_case) = Returns [token_USDT; token_Dai] /\
   Forall (fun t => keep_token t = true) [token_USDT; token_Dai]).
Proof.
  split; (split; [reflexivity |]).
  - apply (proj1 (proj2 stablecoin_exclusion_exact)). reflexivity.
  - apply (proj2 (proj2 (proj2 stablecoin_exclusion_exact)) fetch_upper_case).
    reflexivity.
Defined.

(** Against C1 as stated: records with the symbols "USDT" and "Dai" pass
    the test and are returned by [get_top_tokens]. *)
Lemma upper_case_stablecoin_is_kept :
  keep_token token_USDT = true /\
  keep_token token_Dai = true /\
  get_top_tokens fetch_upper_case = ret [token_USDT; token_Dai].
Proof. repeat split; reflexivity. Qed.

(** * Further properties of [get_top_tokens] *)

Lemma fetch_pages_cons (fetch : Z -> response) (page : Z) (rest : list Z)
    (tokens : list value) :
  fetch_pages fetch (page :: rest) tokens
  = match page_kept (fetch page) with
    | None => ret []
    | Some m => kept <- m ;; fetch_pages fetch rest (tokens ++ kept)
    end.
Proof.
  simpl. destruct (fetch page) as [e | | page_tokens]; [reflexivity | reflexivity |].
  simpl page_kept. cbv beta iota. rewrite bind_assoc.
  apply bind_ext. intro items. rewrite bind_ret. reflexivity.
Qed.

Lemma fetch_pages_ext (fetch fetch' : Z -> response) (pages : list Z)
    (tokens : list value) :
  (forall page, In page pages -> page_kept (fetch page) = page_kept (fetch' page)) ->
  fetch_pages fetch pages tokens = fetch_pages fetch' pages tokens.
Proof.
  revert tokens. induction pages as [| page rest IH]; intros tokens E.
  - reflexivity.
  - rewrite !fetch_pages_cons, (E page) by (left; reflexivity).
    destruct (page_kept (fetch' page)) as [m |]; [| reflexivity].
    apply bind_ext. intro kept. apply IH.
    intros p Hp. apply E. right. exact Hp.
Qed.

Lemma page_kept_iterable (page_tokens : value) (items : list value) :
  iterate page_tokens = ret items ->
  page_kept (Body page_tokens) = Some (ret (List.filter keep_token items)).
Proof. intro E. simpl. rewrite E, bind_ret. reflexivity. Qed.

Lemma iterate_iterable (v : value) :
  iterable v = true -> exists items, iterate v = ret items.
Proof. destruct v; simpl; try discriminate; eauto. Qed.

Lemma iterate_not_iterable (v : value) :
  iterable v = false -> iterate v = raise TypeError.
Proof. destruct v; simpl; try discriminate; reflexivity. Qed.

Lemma page_kept_not_iterable (page_tokens : value) :
  iterable page_tokens = false ->
  page_kept (Body page_tokens) = Some (raise TypeError).
Proof. intro E. simpl. rewrite (iterate_not_iterable _ E). reflexivity. Qed.

Lemma filter_keep_strings {A} (f : A -> string) (l : list A) :
  List.filter keep_token (map (fun x => VStr (f x)) l) = [].
Proof. induction l as [| x rest IH]; simpl; [reflexivity | exact IH]. Qed.

(** X1: when the four bodies parse to objects a loop can visit,
    [get_top_tokens] returns the kept items of page 1, then of page 2,
    page 3 and page 4, each page in its own order; nothing is merged or
    dropped across pages. *)
Theorem get_top_tokens_concatenates_pages (fetch : Z -> response)
    (v1 v2 v3 v4 : value) (items1 items2 items3 items4 : list value) :
  fetch 1%Z = Body v1 -> iterate v1 = ret items1 ->
  fetch 2%Z = Body v2 -> iterate v2 = ret items2 ->
  fetch 3%Z = Body v3 -> iterate v3 = ret items3 ->
  fetch 4%Z = Body v4 -> iterate v4 = ret items4 ->
  get_top_tokens fetch
  = ret (List.filter keep_token items1 ++ List.filter keep_token items2 ++
         List.filter keep_token items3 ++ List.filter keep_token items4).
Proof.
  intros F1 I1 F2 I2 F3 I3 F4 I4. unfold get_top_tokens.
  rewrite fetch_pages_cons, F1, (page_kept_iterable _ _ I1), bind_ret.
  rewrite fetch_pages_cons, F2, (page_kept_iterable _ _ I2), bind_ret.
  rewrite fetch_pages_cons, F3, (page_kept_iterable _ _ I3), bind_ret.
  rewrite fetch_pages_cons, F4, (page_kept_iterable _ _ I4), bind_ret.
  simpl fetch_pages. rewrite <- !app_assoc. reflexivity.
Qed.

Lemma get_top_tokens_concatenates_pages_witness :
  get_top_tokens fetch_two_pages
  = ret (List.filter keep_token [token_X; VNone; token_USDT] ++
         List.filter keep_token [token_Z; token_X] ++
         List.filter keep_token [] ++ List.filter keep_token []).
Proof.
  apply (get_top_tokens_concatenates_pages fetch_two_pages
           (VList [token_X; VNone; token_USDT]) (VList [token_Z; token_X])
           (VList []) (VList [])); reflexivity.
Defined.

(** One page whose body a loop can visit: its kept items are appended and
    the loop over the pages goes on. *)
Ltac page_visited Hbefore p :=
  let v := fresh "v" in
  let items := fresh "items" in
  let F := fresh "F" in
  let I := fresh "I" in
  destruct (Hbefore p ltac:(lia)) as (v & F & I);
  apply iterate_iterable in I as [items I];
  rewrite fetch_pages_cons, F, (page_kept_iterable _ _ I), bind_ret.

(** X2: a body that does not parse discards everything: if page [k] is the
    first such page and the pages before it hold objects a loop can
    visit, [get_top_tokens] returns the empty list, whatever those pages
    and the later ones hold, and the loop of [main] then has no result. *)
Theorem unparsed_page_discards_all `{Py : Python} (fetch : Z -> response) (k : Z) :
  (1 <= k <= 4)%Z ->
  fetch k = BadBody ->
  (forall p, (1 <= p < k)%Z -> exists v, fetch p = Body v /\ iterable v = true) ->
  get_top_tokens fetch = ret [] /\
  forall cfg, filtered_results cfg fetch = ret [].
Proof.
  intros Hk Fk Hbefore.
  assert (get_top_tokens fetch = ret []) as E.
  { unfold get_top_tokens.
    assert (k = 1 \/ k = 2 \/ k = 3 \/ k = 4)%Z as [-> | [-> | [-> | ->]]] by lia.
    - rewrite fetch_pages_cons, Fk. reflexivity.
    - page_visited Hbefore 1%Z.
      rewrite fetch_pages_cons, Fk. reflexivity.
    - page_visited Hbefore 1%Z. page_visited Hbefore 2%Z.
      rewrite fetch_pages_cons, Fk. reflexivity.
    - page_visited Hbefore 1%Z. page_visited Hbefore 2%Z.
      page_visited Hbefore 3%Z.
      rewrite fetch_pages_cons, Fk. reflexivity. }
  split; [exact E |].
  intro cfg. unfold filtered_results. rewrite E, bind_ret. reflexivity.
Qed.

Lemma unparsed_page_discards_all_witness :
  get_top_tokens fetch_bad_third = ret [] /\
  forall cfg, filtered_results cfg fetch_bad_third = ret [].
Proof.
  apply (unparsed_page_discards_all fetch_bad_third 3).
  - lia.
  - reflexivity.
  - intros p Hp. exists (VList [token_X]).
    assert (p = 1 \/ p = 2)%Z as [-> | ->] by lia; split; reflexivity.
Defined.

(** X3: a page whose body is a JSON object (such as an error message of
    the provider) or a JSON string adds no token and stops nothing:
    [get_top_tokens] returns what it returns when that page is an empty
    list. *)
Theorem object_body_adds_nothing (fetch fetch' : Z -> response) (k : Z) (v : value) :
  fetch k = Body v ->
  (exists entries, v = VDict entries) \/ (exists s, v = VStr s) ->
  fetch' k = Body (VList []) ->
  (forall p, p <> k -> fetch' p = fetch p) ->
  get_top_tokens fetch = get_top_tokens fetch'.
Proof.
  intros Fk Hv Fk' Hother. unfold get_top_tokens.
  apply fetch_pages_ext. intros p _.
  destruct (Z.eq_dec p k) as [-> | Hne]; [| rewrite (Hother p Hne); reflexivity].
  rewrite Fk, Fk'.
  rewrite (page_kept_iterable (VList []) [] eq_refl).
  destruct Hv as [[entries ->] | [s ->]].
  - rewrite (page_kept_iterable (VDict entries) _ eq_refl).
    rewrite filter_keep_strings. reflexivity.
  - rewrite (page_kept_iterable (VStr s) _ eq_refl).
    rewrite (filter_keep_strings (fun c => String c EmptyString)). reflexivity.
Qed.

Lemma object_body_adds_nothing_witness :
  get_top_tokens fetch_limited_second
  = get_top_tokens fetch_two_pages_empty_second.
Proof.
  apply (object_body_adds_nothing fetch_limited_second
           fetch_two_pages_empty_second 2 error_body).
  - reflexivity.
  - left. eexists. reflexivity.
  - reflexivity.
  - intros p Hp. unfold fetch_limited_second, fetch_two_pages_empty_second.
    destruct (Z.eqb_spec p 2) as [-> | _]; [contradiction | reflexivity].
Defined.

(** The pages before page [k] were all visited. *)
Ltac earlier_pages :=
  let p := fresh "p" in
  let Hp := fresh "Hp" in
  intros p Hp; try lia;
  assert (p = 1 \/ p = 2 \/ p = 3)%Z as [-> | [-> | ->]] by lia;
  try lia; eauto.

(** X4: [get_top_tokens] raises exactly when, every page before it
    having been visited, some page either makes the fetch fail with an
    exception that the [try] does not catch, which then leaves the
    function as it is, or parses to an object no loop can visit
    ([null], a number or a boolean), which raises [TypeError]: the [try]
    covers the parsing only, not the request and not the loop over the
    parsed body. *)
Theorem get_top_tokens_raises (fetch : Z -> response) (e : exn) :
  result (get_top_tokens fetch) = Raises e <->
  exists k, (1 <= k <= 4)%Z /\
    (fetch k = Fails e \/
     (e = TypeError /\ exists v, fetch k = Body v /\ iterable v = false)) /\
    (forall p, (1 <= p < k)%Z -> exists v, fetch p = Body v /\ iterable v = true).
Proof.
  unfold get_top_tokens. split.
  - rewrite fetch_pages_cons.
    destruct (fetch 1%Z) as [e1 | | v1] eqn:F1; [| discriminate |].
    { intros [= <-]. exists 1%Z. split; [lia |]. split; [auto | earlier_pages]. }
    destruct (iterable v1) eqn:I1.
    2:{ rewrite (page_kept_not_iterable _ I1). intros [= <-]. exists 1%Z.
        split; [lia |]. split; [right; eauto | earlier_pages]. }
    destruct (iterate_iterable _ I1) as [items1 J1].
    rewrite (page_kept_iterable _ _ J1), bind_ret, fetch_pages_cons.
    destruct (fetch 2%Z) as [e2 | | v2] eqn:F2; [| discriminate |].
    { intros [= <-]. exists 2%Z. split; [lia |]. split; [auto | earlier_pages]. }
    destruct (iterable v2) eqn:I2.
    2:{ rewrite (page_kept_not_iterable _ I2). intros [= <-]. exists 2%Z.
        split; [lia |]. split; [right; eauto | earlier_pages]. }
    destruct (iterate_iterable _ I2) as [items2 J2].
    rewrite (page_kept_iterable _ _ J2), bind_ret, fetch_pages_cons.
    destruct (fetch 3%Z) as [e3 | | v3] eqn:F3; [| discriminate |].
    { intros [= <-]. exists 3%Z. split; [lia |]. split; [auto | earlier_pages]. }
    destruct (iterable v3) eqn:I3.
    2:{ rewrite (page_kept_not_iterable _ I3). intros [= <-]. exists 3%Z.
        split; [lia |]. split; [right; eauto | earlier_pages]. }
    destruct (iterate_iterable _ I3) as [items3 J3].
    rewrite (page_kept_iterable _ _ J3), bind_ret, fetch_pages_cons.
    destruct (fetch 4%Z) as [e4 | | v4] eqn:F4; [| discriminate |].
    { intros [= <-]. exists 4%Z. split; [lia |]. split; [auto | earlier_pages]. }
    destruct (iterable v4) eqn:I4.
    2:{ rewrite (page_kept_not_iterable _ I4). intros [= <-]. exists 4%Z.
        split; [lia |]. split; [right; eauto | earlier_pages]. }
    destruct (iterate_iterable _ I4) as [items4 J4].
    rewrite (page_kept_iterable _ _ J4), bind_ret. discriminate.
  - intros (k & Hk & Hpage & Hbefore).
    assert (forall rest tokens,
              result (fetch_pages fetch (k :: rest) tokens) = Raises e) as Hat.
    { intros rest tokens. rewrite fetch_pages_cons.
      destruct Hpage as [Fk | (-> & v & Fk & Ik)].
      - rewrite Fk. reflexivity.
      - rewrite Fk, (page_kept_not_iterable _ Ik). reflexivity. }
    assert (k = 1 \/ k = 2 \/ k = 3 \/ k = 4)%Z as [-> | [-> | [-> | ->]]] by lia.
    + apply Hat.
    + page_visited Hbefore 1%Z. apply Hat.
    + page_visited Hbefore 1%Z. page_visited Hbefore 2%Z. apply Hat.
    + page_visited Hbefore 1%Z. page_visited Hbefore 2%Z.
      page_visited Hbefore 3%Z. apply Hat.
Qed.

(** * Further properties of the loop of [main] *)

Lemma process_tokens_returns_from `{Py : Python} (cfg : config) (top_tokens : list value)
    (results0 results : list scored) :
  result (process_tokens cfg top_tokens results0) = Returns results <->
  exists rs : list (option scored),
    Forall2 (fun t r => result (process_token cfg t) = Returns r) top_tokens rs /\
    results = results0 ++ omap id rs.
Proof.
  revert results0. induction top_tokens as [| token rest IH]; intro results0.
  - simpl. split.
    + intros [= <-]. exists []. split; [constructor |].
      simpl. rewrite app_nil_r. reflexivity.
    + intros (rs & HF & ->). inversion HF; subst. simpl.
      rewrite app_nil_r. reflexivity.
  - cbn [process_tokens]. split.
    + intro H. apply result_bind_returns in H as (r & Hr & H).
      apply IH in H as (rs & HF & ->).
      exists (r :: rs). split; [constructor; assumption |].
      destruct r as [s |]; simpl; [| reflexivity].
      rewrite <- app_assoc. reflexivity.
    + intros (rs & HF & ->). inversion HF as [| t r rest' rs' Hr HF']; subst.
      rewrite (result_bind_returns_l _ _ r Hr). apply IH.
      exists rs'. split; [exact HF' |].
      destruct r as [s |]; simpl; [| reflexivity].
      rewrite <- app_assoc. reflexivity.
Qed.

(** X5: the loop returns exactly when the body returns for every token,
    and [results] is then the list of the kept assets in the order of the
    tokens: nothing is reordered, merged or deduplicated. *)
Theorem results_in_token_order `{Py : Python} (cfg : config) (top_tokens : list value)
    (results : list scored) :
  result (process_tokens cfg top_tokens []) = Returns results <->
  exists rs : list (option scored),
    Forall2 (fun t r => result (process_token cfg t) = Returns r) top_tokens rs /\
    results = omap id rs.
Proof. apply process_tokens_returns_from. Qed.

Lemma process_tokens_raises_from `{Py : Python} (cfg : config) (top_tokens : list value)
    (results0 : list scored) (e : exn) :
  result (process_tokens cfg top_tokens results0) = Raises e ->
  exists before token after,
    top_tokens = before ++ token :: after /\
    (exists results, result (process_tokens cfg before results0) = Returns results) /\
    result (process_token cfg token) = Raises e.
Proof.
  revert results0. induction top_tokens as [| token rest IH]; intros results0 H.
  - discriminate.
  - cbn [process_tokens] in H.
    destruct (result (process_token cfg token)) as [r | e1] eqn:Hr.
    + rewrite (result_bind_returns_l _ _ r Hr) in H.
      apply IH in H as (before & t & after & -> & (results & Hb) & Ht).
      exists (token :: before), t, after. split; [reflexivity |].
      split; [| exact Ht]. exists results.
      cbn [process_tokens]. rewrite (result_bind_returns_l _ _ r Hr). exact Hb.
    + rewrite (result_bind_raises_l _ _ e1 Hr) in H. injection H as ->.
      exists [], token, rest. split; [reflexivity |].
      split; [| exact Hr]. exists results0. reflexivity.
Qed.

(** X6: the loop raises an exception exactly when some token raises it in
    the body and the body returned for every token before it: the first
    failure ends the run, and nothing after it is looked at. *)
Theorem first_failure_ends_the_loop `{Py : Python} (cfg : config) (top_tokens : list value)
    (e : exn) :
  result (process_tokens cfg top_tokens []) = Raises e <->
  exists before token after,
    top_tokens = before ++ token :: after /\
    (exists results, result (process_tokens cfg before []) = Returns results) /\
    result (process_token cfg token) = Raises e.
Proof.
  split; [apply process_tokens_raises_from |].
  intros (before & token & after & -> & (results & Hb) & Ht).
  rewrite process_tokens_app, (result_bind_returns_l _ _ results Hb).
  cbn [process_tokens]. apply result_bind_raises_l, Ht.
Qed.

(** ** What the body of the loop can raise *)

Lemma result_bind_raises {A B} (m : M A) (f : A -> M B) (e : exn) :
  result (bind m f) = Raises e ->
  result m = Raises e \/ exists a, result m = Returns a /\ result (f a) = Raises e.
Proof.
  destruct m as [ds [a | e1]]; simpl.
  - destruct (f a) as [ds1 r] eqn:E. simpl. intros ->.
    right. exists a. rewrite E. split; reflexivity.
  - intros [= ->]. left. reflexivity.
Qed.

(** The result of [n / d if d > 0 else 0], the shape of both metrics. *)
Lemma guarded_division_result `{Py : Python} (n d : value) :
  result (positive <- py_gt d (VNum 0) ;;
          if positive : bool then py_truediv n d else ret (VNum 0))
  = match to_number d with
    | None => Raises TypeError
    | Some y =>
        if number_ltb (Fin 0) y then
          match to_number n with
          | Some x =>
              match truediv x y with
              | Some r => Returns (of_number r)
              | None => Raises OverflowError
              end
          | None => Raises TypeError
          end
        else Returns (VNum 0)
    end.
Proof.
  unfold py_gt, py_lt. cbn [to_number].
  destruct (to_number d) as [y |] eqn:Ed; [| reflexivity].
  rewrite bind_ret.
  destruct (number_ltb (Fin 0) y) eqn:L; [| reflexivity].
  unfold py_truediv. rewrite Ed.
  destruct (to_number n) as [x |]; [| reflexivity].
  rewrite (positive_not_zero y L).
  destruct (truediv x y); reflexivity.
Qed.

Lemma guarded_division_raises `{Py : Python} (n d : value) (e : exn) :
  result (positive <- py_gt d (VNum 0) ;;
          if positive : bool then py_truediv n d else ret (VNum 0)) = Raises e ->
  e = TypeError \/ e = OverflowError.
Proof.
  rewrite guarded_division_result.
  destruct (to_number d) as [y |]; [| intros [= <-]; auto].
  destruct (number_ltb (Fin 0) y); [| discriminate].
  destruct (to_number n) as [x |]; [| intros [= <-]; auto].
  destruct (truediv x y); [discriminate | intros [= <-]; auto].
Qed.

(** On two numbers the guarded division raises nothing but the
    [OverflowError] of the division itself. *)
Lemma guarded_division_numbers `{Py : Python} (n d : value) (x y : number) :
  to_number n = Some x ->
  to_number d = Some y ->
  result (positive <- py_gt d (VNum 0) ;;
          if positive : bool then py_truediv n d else ret (VNum 0))
  = match guarded_quotient x y with
    | Some r => Returns (of_number r)
    | None => Raises OverflowError
    end.
Proof.
  intros En Ed. rewrite guarded_division_result, Ed, En. unfold guarded_quotient.
  destruct (number_ltb (Fin 0) y); reflexivity.
Qed.

Lemma py_lt_raises (a b : value) (e : exn) :
  result (py_lt a b) = Raises e -> e = TypeError.
Proof.
  unfold py_lt. destruct (to_number a), (to_number b); simpl; congruence.
Qed.

Lemma passes_filters_raises (cfg : config) (market_cap volume potential_gains : value)
    (e : exn) :
  result (passes_filters cfg market_cap volume potential_gains) = Raises e ->
  e = TypeError.
Proof.
  unfold passes_filters, py_gt. intro H.
  apply result_bind_raises in H as [H | ([|] & _ & H)];
    [eapply py_lt_raises, H | | discriminate].
  cbn [negb] in H.
  apply result_bind_raises in H as [H | ([|] & _ & H)];
    [eapply py_lt_raises, H | | discriminate].
  cbn [negb] in H.
  apply result_bind_raises in H as [H | ([|] & _ & H)];
    [eapply py_lt_raises, H | | discriminate].
  cbn [negb] in H. eapply py_lt_raises, H.
Qed.

Lemma subscript_returns (token : value) (key : string) (v : value) :
  result (subscript token key) = Returns v ->
  exists entries, token = VDict entries /\ dict_get key entries = Some v.
Proof.
  destruct token; try discriminate. simpl. unfold getitem.
  destruct (dict_get key entries) as [w |] eqn:E; [| discriminate].
  intros [= ->]. eauto.
Qed.

Lemma subscript_raises (token : value) (key : string) (e : exn) :
  result (subscript token key) = Raises e ->
  e = TypeError \/
  exists entries, token = VDict entries /\ dict_get key entries = None /\
                  e = KeyError key.
Proof.
  destruct token; simpl; try (intros [= <-]; left; reflexivity).
  unfold getitem. destruct (dict_get key entries) eqn:E; [discriminate |].
  intros [= <-]. right. eauto.
Qed.

Lemma py_upper_returns `{Py : Python} (v : value) (symbol : string) :
  result (py_upper v) = Returns symbol ->
  exists s, v = VStr s /\ symbol = str_upper s.
Proof. destruct v; simpl; try discriminate. intros [= <-]. eauto. Qed.

Lemma py_upper_raises `{Py : Python} (v : value) (e : exn) :
  result (py_upper v) = Raises e -> e = AttributeError /\ forall s, v <> VStr s.
Proof.
  destruct v; simpl; try discriminate; intros [= <-]; split;
    try reflexivity; intros s'; discriminate.
Qed.

Lemma process_token_raises `{Py : Python} (cfg : config) (token : value) (e : exn) :
  result (process_token cfg token) = Raises e ->
  e = TypeError \/ e = OverflowError \/
  (e = AttributeError /\
   exists entries symbol,
     token = VDict entries /\ dict_get "symbol" entries = Some symbol /\
     forall s, symbol <> VStr s) \/
  (exists key entries,
     e = KeyError key /\ token = VDict entries /\
     In key token_fields /\ dict_get key entries = None).
Proof.
  unfold process_token. intro H.
  assert (forall key, In key token_fields ->
            result (subscript token key) = Raises e ->
            e = TypeError \/ e = OverflowError \/
            (e = AttributeError /\
             exists entries symbol,
               token = VDict entries /\ dict_get "symbol" entries = Some symbol /\
               forall s, symbol <> VStr s) \/
            (exists key entries,
               e = KeyError key /\ token = VDict entries /\
               In key token_fields /\ dict_get key entries = None)) as Hsub.
  { intros key Hin Hr.
    apply subscript_raises in Hr as [-> | (entries & -> & Hnone & ->)];
      [left; reflexivity |].
    right. right. right. exists key, entries. auto. }
  apply result_bind_raises in H as [H | (token_name & _ & H)];
    [apply (Hsub "name"); [simpl; tauto | exact H] |].
  apply result_bind_raises in H as [H | (token_symbol & Hsym & H)];
    [apply (Hsub "symbol"); [simpl; tauto | exact H] |].
  apply result_bind_raises in H as [H | (current_price & _ & H)];
    [apply (Hsub "current_price"); [simpl; tauto | exact H] |].
  apply result_bind_raises in H as [H | (ath_price & _ & H)];
    [apply (Hsub "ath"); [simpl; tauto | exact H] |].
  apply result_bind_raises in H as [H | (volume & _ & H)];
    [apply (Hsub "total_volume"); [simpl; tauto | exact H] |].
  apply result_bind_raises in H as [H | (market_cap & _ & H)];
    [apply (Hsub "market_cap"); [simpl; tauto | exact H] |].
  apply result_bind_raises in H as [H | (price_change_7d & _ & H)];
    [apply (Hsub "price_change_percentage_7d_in_currency");
     [simpl; tauto | exact H] |].
  apply result_bind_raises in H as [H | (ratio & _ & H)];
    [destruct (guarded_division_raises _ _ _ H); auto |].
  apply result_bind_raises in H as [H | (gains & _ & H)];
    [destruct (guarded_division_raises _ _ _ H); auto |].
  apply result_bind_raises in H as [H | (keep & _ & H)];
    [left; eapply passes_filters_raises, H |].
  destruct keep; [| discriminate].
  apply result_bind_raises in H as [H | (symbol & _ & H)]; [| discriminate].
  apply py_upper_raises in H as [-> Hnot].
  apply subscript_returns in Hsym as (entries & -> & Hsym).
  right. right. left. split; [reflexivity |]. exists entries, token_symbol. auto.
Qed.

(** X7: the body of the loop raises nothing but: [TypeError];
    [OverflowError], from one of its two divisions; [AttributeError],
    and then the token has a symbol that is not a string; or [KeyError]
    for one of the seven keys it reads, and then the token is a
    dictionary without that key. In particular it never raises
    [ZeroDivisionError]. *)
Theorem process_token_exceptions `{Py : Python} (cfg : config) (token : value)
    (e : exn) :
  result (process_token cfg token) = Raises e ->
  e = TypeError \/ e = OverflowError \/
  (e = AttributeError /\
   exists entries symbol,
     token = VDict entries /\ dict_get "symbol" entries = Some symbol /\
     forall s, symbol <> VStr s) \/
  (exists key entries,
     e = KeyError key /\ token = VDict entries /\
     In key token_fields /\ dict_get key entries = None).
Proof. apply process_token_raises. Qed.

Lemma process_token_exceptions_witness :
  result (process_token scenario_cfg (VDict entries_without_ath))
  = Raises (KeyError "ath") /\
  (KeyError "ath" = TypeError \/ KeyError "ath" = OverflowError \/
   (KeyError "ath" = AttributeError /\
    exists entries symbol,
      VDict entries_without_ath = VDict entries /\
      dict_get "symbol" entries = Some symbol /\
      forall s, symbol <> VStr s) \/
   (exists key entries,
      KeyError "ath" = KeyError key /\ VDict entries_without_ath = VDict entries /\
      In key token_fields /\ dict_get key entries = None)).
Proof.
  split; [reflexivity |].
  apply (process_token_exceptions scenario_cfg (VDict entries_without_ath)).
  reflexivity.
Defined.

(** ** The body of the loop on a token that has its seven keys *)

Lemma process_token_present `{Py : Python} (cfg : config)
    (entries : list (string * value))
    (token_name token_symbol current_price ath_price volume market_cap
       price_change_7d : value) :
  dict_get "name" entries = Some token_name ->
  dict_get "symbol" entries = Some token_symbol ->
  dict_get "current_price" entries = Some current_price ->
  dict_get "ath" entries = Some ath_price ->
  dict_get "total_volume" entries = Some volume ->
  dict_get "market_cap" entries = Some market_cap ->
  dict_get "price_change_percentage_7d_in_currency" entries = Some price_change_7d ->
  process_token cfg (VDict entries)
  = (ratio <- mc_vol_ratio market_cap volume ;;
     potential_gains <- calculate_potential_gains current_price ath_price ;;
     keep <- passes_filters cfg market_cap volume potential_gains ;;
     if keep : bool then
       symbol <- py_upper token_symbol ;;
       ret (Some {| Token_Name := token_name;
                    Symbol := symbol;
                    Current_Price := current_price;
                    ATH := ath_price;
                    Potential_Gains := potential_gains;
                    Market_Cap := market_cap;
                    Volume := volume;
                    Price_Change_7D := price_change_7d;
                    MC_Volume_Ratio := ratio |})
     else ret None).
Proof.
  intros E1 E2 E3 E4 E5 E6 E7. unfold process_token, subscript, getitem.
  rewrite E1, bind_ret, E2, bind_ret, E3, bind_ret, E4, bind_ret.
  rewrite E5, bind_ret, E6, bind_ret, E7, bind_ret. reflexivity.
Qed.

Lemma passes_filters_cap_not_number (cfg : config)
    (market_cap volume potential_gains : value) :
  to_number market_cap = None ->
  result (passes_filters cfg market_cap volume potential_gains) = Raises TypeError.
Proof.
  intro E. unfold passes_filters, py_lt. cbn [to_number]. rewrite E. reflexivity.
Qed.

(** X8: a token that has its seven keys but whose volume, price or market
    cap is not a number ([null], a string, a list, an object) is never
    kept and never skipped: the body raises [TypeError], or the
    [OverflowError] of the ratio's division when that comes first. When
    it is the volume that is not a number, the exception is
    [TypeError]. *)
Theorem non_numeric_field_is_type_error `{Py : Python} (cfg : config)
    (entries : list (string * value))
    (token_name token_symbol current_price ath_price volume market_cap
       price_change_7d : value) :
  dict_get "name" entries = Some token_name ->
  dict_get "symbol" entries = Some token_symbol ->
  dict_get "current_price" entries = Some current_price ->
  dict_get "ath" entries = Some ath_price ->
  dict_get "total_volume" entries = Some volume ->
  dict_get "market_cap" entries = Some market_cap ->
  dict_get "price_change_percentage_7d_in_currency" entries = Some price_change_7d ->
  to_number volume = None \/ to_number current_price = None \/
  to_number market_cap = None ->
  exists e,
    result (process_token cfg (VDict entries)) = Raises e /\
    (e = TypeError \/ e = OverflowError) /\
    (to_number volume = None -> e = TypeError).
Proof.
  intros E1 E2 E3 E4 E5 E6 E7 Hbad.
  rewrite (process_token_present cfg entries _ _ _ _ _ _ _ E1 E2 E3 E4 E5 E6 E7).
  pose proof (guarded_division_result market_cap volume) as G1.
  pose proof (guarded_division_result ath_price current_price) as G2.
  fold (mc_vol_ratio market_cap volume) in G1.
  fold (calculate_potential_gains current_price ath_price) in G2.
  destruct (result (mc_vol_ratio market_cap volume)) as [ratio | e1] eqn:R1.
  2:{ exists e1. split; [apply result_bind_raises_l, R1 |]. split.
      - apply (guarded_division_raises market_cap volume). exact R1.
      - intro Hv. rewrite Hv in G1. congruence. }
  rewrite (result_bind_returns_l _ _ ratio R1).
  assert (to_number volume <> None) as Hvol.
  { intro Hv. rewrite Hv in G1. discriminate. }
  destruct (result (calculate_potential_gains current_price ath_price))
    as [gains | e2] eqn:R2.
  2:{ exists e2. split; [apply result_bind_raises_l, R2 |]. split.
      - apply (guarded_division_raises ath_price current_price). exact R2.
      - intro Hv. contradiction. }
  rewrite (result_bind_returns_l _ _ gains R2).
  exists TypeError. split; [| split; [auto | reflexivity]].
  apply result_bind_raises_l, passes_filters_cap_not_number.
  destruct Hbad as [Hv | [Hp | Hc]]; [contradiction | | exact Hc].
  rewrite Hp in G2. discriminate.
Qed.

Lemma non_numeric_field_is_type_error_witness :
  exists e,
    result (process_token default_cfg (VDict entries_null_volume)) = Raises e /\
    (e = TypeError \/ e = OverflowError) /\
    (to_number VNone = None -> e = TypeError).
Proof.
  apply (non_numeric_field_is_type_error default_cfg entries_null_volume
           (VStr "Ncoin") (VStr "nco") (VNum 2) (VNum 8) VNone (VNum 300000000)
           (VNum 1)); try reflexivity.
  left. reflexivity.
Defined.

Lemma passes_filters_gain (cfg : config) (cap vol : Q) (gains : number) :
  passes_filters cfg (VNum cap) (VNum vol) (of_number gains)
  = ret (Qltb (market_cap_min cfg) cap && Qltb cap (market_cap_max cfg)
         && Qltb (volume_min cfg) vol && number_ltb (Fin 1) gains).
Proof.
  unfold passes_filters.
  rewrite py_lt_num, bind_ret.
  destruct (Qltb (market_cap_min cfg) cap); [| reflexivity].
  cbn [negb andb]. rewrite py_lt_num, bind_ret.
  destruct (Qltb cap (market_cap_max cfg)); [| reflexivity].
  cbn [negb andb]. rewrite py_gt_num, bind_ret.
  destruct (Qltb (volume_min cfg) vol); [| reflexivity].
  cbn [negb andb]. unfold py_gt, py_lt.
  destruct gains; reflexivity.
Qed.

(** X9: on a token whose name is any object, whose symbol is a string,
    whose price, all-time high, volume and market cap are finite numbers
    and whose 7-day change is any object (also [null]), the body raises
    nothing but the [OverflowError] of one of its two divisions. When
    both return, the gain is the float of [ath / price] for a positive
    price and 0 else, the ratio the float of [cap / vol] for a positive
    volume and 0 else; the token is kept exactly when the four strict
    comparisons hold on these values, and the asset appended holds the
    fields as read, the symbol in upper case and the two metrics. *)
Theorem process_token_on_numbers `{Py : Python} (cfg : config)
    (entries : list (string * value))
    (token_name price_change_7d : value) (symbol : string) (price ath vol cap : Q) :
  dict_get "name" entries = Some token_name ->
  dict_get "symbol" entries = Some (VStr symbol) ->
  dict_get "current_price" entries = Some (VNum price) ->
  dict_get "ath" entries = Some (VNum ath) ->
  dict_get "total_volume" entries = Some (VNum vol) ->
  dict_get "market_cap" entries = Some (VNum cap) ->
  dict_get "price_change_percentage_7d_in_currency" entries = Some price_change_7d ->
  result (process_token cfg (VDict entries))
  = match guarded_quotient (Fin cap) (Fin vol),
          guarded_quotient (Fin ath) (Fin price) with
    | Some ratio, Some gains =>
        Returns
          (if Qltb (market_cap_min cfg) cap && Qltb cap (market_cap_max cfg)
              && Qltb (volume_min cfg) vol && number_ltb (Fin 1) gains
           then Some {| Token_Name := token_name;
                        Symbol := str_upper symbol;
                        Current_Price := VNum price;
                        ATH := VNum ath;
                        Potential_Gains := of_number gains;
                        Market_Cap := VNum cap;
                        Volume := VNum vol;
                        Price_Change_7D := price_change_7d;
                        MC_Volume_Ratio := of_number ratio |}
           else None)
    | _, _ => Raises OverflowError
    end.
Proof.
  intros E1 E2 E3 E4 E5 E6 E7.
  rewrite (process_token_present cfg entries _ _ _ _ _ _ _ E1 E2 E3 E4 E5 E6 E7).
  pose proof (guarded_division_numbers (VNum cap) (VNum vol) _ _ eq_refl eq_refl)
    as R1.
  pose proof (guarded_division_numbers (VNum ath) (VNum price) _ _ eq_refl eq_refl)
    as R2.
  fold (mc_vol_ratio (VNum cap) (VNum vol)) in R1.
  fold (calculate_potential_gains (VNum price) (VNum ath)) in R2.
  destruct (guarded_quotient (Fin cap) (Fin vol)) as [ratio |];
    [| apply result_bind_raises_l, R1].
  rewrite (result_bind_returns_l _ _ _ R1).
  destruct (guarded_quotient (Fin ath) (Fin price)) as [gains |];
    [| apply result_bind_raises_l, R2].
  rewrite (result_bind_returns_l _ _ _ R2).
  rewrite passes_filters_gain, bind_ret.
  destruct (Qltb (market_cap_min cfg) cap && Qltb cap (market_cap_max cfg)
            && Qltb (volume_min cfg) vol && number_ltb (Fin 1) gains);
    reflexivity.
Qed.

Lemma process_token_on_numbers_witness :
  result (process_token default_cfg token_Z)
  = match guarded_quotient (Fin 300000000) (Fin 5000000),
          guarded_quotient (Fin 8) (Fin 2) with
    | Some ratio, Some gains =>
        Returns
          (if Qltb (market_cap_min default_cfg) 300000000
              && Qltb 300000000 (market_cap_max default_cfg)
              && Qltb (volume_min default_cfg) 5000000
              && number_ltb (Fin 1) gains
           then Some {| Token_Name := VStr "Zcoin";
                        Symbol := str_upper "zco";
                        Current_Price := VNum 2;
                        ATH := VNum 8;
                        Potential_Gains := of_number gains;
                        Market_Cap := VNum 300000000;
                        Volume := VNum 5000000;
                        Price_Change_7D := VNone;
                        MC_Volume_Ratio := of_number ratio |}
           else None)
    | _, _ => Raises OverflowError
    end.
Proof.
  apply (process_token_on_numbers default_cfg _ (VStr "Zcoin") VNone "zco"
           2 8 5000000 300000000); reflexivity.
Defined.

(** X10: an asset the body appends holds the fields of its token as they
    were read: name, price, all-time high, volume, market cap and 7-day
    change unchanged, and the symbol, which was a string, in upper case
    (the ASCII upper case when the symbol is made of ASCII characters). *)
Theorem kept_asset_copies_token `{Py : Python} (cfg : config) (token : value)
    (s : scored) :
  result (process_token cfg token) = Returns (Some s) ->
  exists entries symbol,
    token = VDict entries /\
    dict_get "name" entries = Some (Token_Name s) /\
    dict_get "symbol" entries = Some (VStr symbol) /\
    Symbol s = str_upper symbol /\
    (ascii_only symbol = true -> Symbol s = upper symbol) /\
    dict_get "current_price" entries = Some (Current_Price s) /\
    dict_get "ath" entries = Some (ATH s) /\
    dict_get "total_volume" entries = Some (Volume s) /\
    dict_get "market_cap" entries = Some (Market_Cap s) /\
    dict_get "price_change_percentage_7d_in_currency" entries
    = Some (Price_Change_7D s).
Proof.
  unfold process_token. intro H.
  apply result_bind_returns in H as (token_name & H1 & H).
  apply result_bind_returns in H as (token_symbol & H2 & H).
  apply result_bind_returns in H as (current_price & H3 & H).
  apply result_bind_returns in H as (ath_price & H4 & H).
  apply result_bind_returns in H as (volume & H5 & H).
  apply result_bind_returns in H as (market_cap & H6 & H).
  apply result_bind_returns in H as (price_change_7d & H7 & H).
  apply result_bind_returns in H as (ratio & _ & H).
  apply result_bind_returns in H as (gains & _ & H).
  apply result_bind_returns in H as (keep & _ & H).
  destruct keep; [| discriminate].
  apply result_bind_returns in H as (symbol & Hup & H).
  simpl in H. injection H as <-.
  apply py_upper_returns in Hup as (sym & -> & ->).
  apply subscript_returns in H1 as (entries & -> & H1).
  apply subscript_returns in H2 as (? & [= <-] & H2).
  apply subscript_returns in H3 as (? & [= <-] & H3).
  apply subscript_returns in H4 as (? & [= <-] & H4).
  apply subscript_returns in H5 as (? & [= <-] & H5).
  apply subscript_returns in H6 as (? & [= <-] & H6).
  apply subscript_returns in H7 as (? & [= <-] & H7).
  exists entries, sym. simpl.
  repeat split; try assumption. apply str_upper_ascii.
Qed.

Lemma kept_asset_copies_token_witness :
  exists entries symbol,
    token_Z = VDict entries /\
    dict_get "name" entries = Some (Token_Name scored_Z) /\
    dict_get "symbol" entries = Some (VStr symbol) /\
    Symbol scored_Z = str_upper symbol /\
    (ascii_only symbol = true -> Symbol scored_Z = upper symbol) /\
    dict_get "current_price" entries = Some (Current_Price scored_Z) /\
    dict_get "ath" entries = Some (ATH scored_Z) /\
    dict_get "total_volume" entries = Some (Volume scored_Z) /\
    dict_get "market_cap" entries = Some (Market_Cap scored_Z) /\
    dict_get "price_change_percentage_7d_in_currency" entries
    = Some (Price_Change_7D scored_Z).
Proof.
  apply (kept_asset_copies_token default_cfg token_Z scored_Z). reflexivity.
Defined.

(** ** What every kept asset satisfies *)

Lemma to_number_of_number (r : number) : to_number (of_number r) = Some r.
Proof. destruct r; reflexivity. Qed.

Lemma number_ltb_fin_l (a a' : Q) (x : number) :
  (a' <= a)%Q -> number_ltb (Fin a) x = true -> number_ltb (Fin a') x = true.
Proof.
  intro Hle. destruct x as [q | negative |]; [| exact id | exact id].
  rewrite !number_ltb_fin, !Qltb_lt. exact (Qle_lt_trans _ _ _ Hle).
Qed.

Lemma number_ltb_fin_r (b b' : Q) (x : number) :
  (b <= b')%Q -> number_ltb x (Fin b) = true -> number_ltb x (Fin b') = true.
Proof.
  intro Hle. destruct x as [q | negative |]; [| exact id | exact id].
  rewrite !number_ltb_fin, !Qltb_lt. intro H. exact (Qlt_le_trans _ _ _ H Hle).
Qed.

(** A number strictly between two finite bounds is finite. *)
Lemma number_between (a b : Q) (x : number) :
  number_ltb (Fin a) x = true -> number_ltb x (Fin b) = true ->
  exists q, x = Fin q /\ (a < q /\ q < b)%Q.
Proof.
  destruct x as [q | [|] |]; try discriminate.
  rewrite !number_ltb_fin, !Qltb_lt. eauto.
Qed.

Lemma passes_filters_numbers (cfg : config)
    (market_cap volume potential_gains : value) (c v g : number) :
  to_number market_cap = Some c ->
  to_number volume = Some v ->
  to_number potential_gains = Some g ->
  passes_filters cfg market_cap volume potential_gains
  = ret (number_ltb (Fin (market_cap_min cfg)) c
         && number_ltb c (Fin (market_cap_max cfg))
         && number_ltb (Fin (volume_min cfg)) v && number_ltb (Fin 1) g).
Proof.
  intros Ec Ev Eg. unfold passes_filters, py_gt, py_lt. cbn [to_number].
  rewrite Ec, Ev, Eg, bind_ret.
  destruct (number_ltb (Fin (market_cap_min cfg)) c); [| reflexivity].
  cbn [negb andb]. rewrite bind_ret.
  destruct (number_ltb c (Fin (market_cap_max cfg))); [| reflexivity].
  cbn [negb andb]. rewrite bind_ret.
  destruct (number_ltb (Fin (volume_min cfg)) v); reflexivity.
Qed.

Lemma passes_filters_true (cfg : config) (market_cap volume potential_gains : value) :
  result (passes_filters cfg market_cap volume potential_gains) = Returns true ->
  exists c v g : number,
    to_number market_cap = Some c /\ to_number volume = Some v /\
    to_number potential_gains = Some g /\
    number_ltb (Fin (market_cap_min cfg)) c = true /\
    number_ltb c (Fin (market_cap_max cfg)) = true /\
    number_ltb (Fin (volume_min cfg)) v = true /\
    number_ltb (Fin 1) g = true.
Proof.
  unfold passes_filters, py_gt, py_lt. cbn [to_number]. intro H.
  destruct (to_number market_cap) as [c |]; [| discriminate].
  rewrite bind_ret in H.
  destruct (number_ltb (Fin (market_cap_min cfg)) c) eqn:L1; cbn [negb] in H;
    [| discriminate].
  rewrite bind_ret in H.
  destruct (number_ltb c (Fin (market_cap_max cfg))) eqn:L2; cbn [negb] in H;
    [| discriminate].
  destruct (to_number volume) as [v |]; [| discriminate].
  rewrite bind_ret in H.
  destruct (number_ltb (Fin (volume_min cfg)) v) eqn:L3; cbn [negb] in H;
    [| discriminate].
  destruct (to_number potential_gains) as [g |]; [| discriminate].
  simpl in H. injection H as L4.
  exists c, v, g. auto 10.
Qed.

Lemma well_scored_facts `{Py : Python} (cfg : config) (s : scored) :
  well_scored cfg s ->
  exists (cap : Q) (vol price ath gain ratio : number),
    to_number (Market_Cap s) = Some (Fin cap) /\
    to_number (Volume s) = Some vol /\
    to_number (Current_Price s) = Some price /\
    to_number (ATH s) = Some ath /\
    (market_cap_min cfg < cap /\ cap < market_cap_max cfg)%Q /\
    number_ltb (Fin (volume_min cfg)) vol = true /\
    positive_number price /\
    truediv ath price = Some gain /\
    Potential_Gains s = of_number gain /\
    number_ltb (Fin 1) gain = true /\
    (forall p a : Q, price = Fin p -> ath = Fin a -> (p < a)%Q) /\
    guarded_quotient (Fin cap) vol = Some ratio /\
    MC_Volume_Ratio s = of_number ratio.
Proof.
  intros (Hpass & Hratio & Hgains).
  unfold passes in Hpass.
  assert (result (passes_filters cfg (Market_Cap s) (Volume s) (Potential_Gains s))
          = Returns true) as Hp by (rewrite Hpass; reflexivity).
  apply passes_filters_true in Hp
    as (c & vol & g & Ec & Ev & Eg & L1 & L2 & L3 & L4).
  destruct (number_between _ _ c L1 L2) as (cap & -> & Hcap).
  unfold calculate_potential_gains in Hgains.
  rewrite guarded_division_result in Hgains.
  unfold mc_vol_ratio in Hratio.
  rewrite (guarded_division_numbers _ _ (Fin cap) vol Ec Ev) in Hratio.
  destruct (guarded_quotient (Fin cap) vol) as [ratio |] eqn:Eq; [| discriminate].
  injection Hratio as Hratio.
  destruct (to_number (Current_Price s)) as [price |]; [| discriminate].
  destruct (number_ltb (Fin 0) price) eqn:Lp.
  - destruct (to_number (ATH s)) as [ath |]; [| discriminate].
    destruct (truediv ath price) as [gain |] eqn:Et; [| discriminate].
    injection Hgains as Hgains.
    rewrite <- Hgains, to_number_of_number in Eg. injection Eg as <-.
    exists cap, vol, price, ath, gain, ratio.
    refine (conj Ec (conj Ev (conj eq_refl (conj eq_refl (conj Hcap (conj L3
             (conj Lp (conj Et (conj (eq_sym Hgains) (conj L4
             (conj _ (conj Eq (eq_sym Hratio))))))))))))).
    intros p a -> ->.
    destruct (Qlt_le_dec p a) as [Hlt | Hle]; [exact Hlt |].
    exfalso.
    assert (0 < p)%Q as Hpos by (apply Qltb_lt; rewrite <- number_ltb_fin; exact Lp).
    rewrite (truediv_le_one a p gain Hpos Hle Et) in L4. discriminate.
  - injection Hgains as Hgains. rewrite <- Hgains in Eg.
    injection Eg as <-. discriminate.
Qed.

Lemma loop_results_well_scored `{Py : Python} (cfg : config)
    (top_tokens : list value) (results : list scored) :
  result (process_tokens cfg top_tokens []) = Returns results ->
  Forall (well_scored cfg) results.
Proof.
  intro H.
  apply (process_tokens_results cfg (well_scored cfg) (process_token_kept cfg)
           top_tokens [] results); [constructor | exact H].
Qed.

Lemma results_facts `{Py : Python} (cfg : config) (top_tokens : list value)
    (results : list scored) (s : scored) :
  result (process_tokens cfg top_tokens []) = Returns results ->
  s ∈ results ->
  exists (cap : Q) (vol price ath gain ratio : number),
    to_number (Market_Cap s) = Some (Fin cap) /\
    to_number (Volume s) = Some vol /\
    to_number (Current_Price s) = Some price /\
    to_number (ATH s) = Some ath /\
    (market_cap_min cfg < cap /\ cap < market_cap_max cfg)%Q /\
    number_ltb (Fin (volume_min cfg)) vol = true /\
    positive_number price /\
    truediv ath price = Some gain /\
    Potential_Gains s = of_number gain /\
    number_ltb (Fin 1) gain = true /\
    (forall p a : Q, price = Fin p -> ath = Fin a -> (p < a)%Q) /\
    guarded_quotient (Fin cap) vol = Some ratio /\
    MC_Volume_Ratio s = of_number ratio.
Proof.
  intros H Hs. apply well_scored_facts.
  pose proof (loop_results_well_scored cfg top_tokens results H) as HF.
  rewrite Forall_forall in HF. apply HF, Hs.
Qed.

(** X11: every asset in [results] has numbers for its market cap,
    volume, price and all-time high. Its market cap is finite and lies
    strictly inside the market-cap range, its volume is strictly above
    the volume minimum and its price is positive. Its gain is the float
    that [ath / price] evaluated to, which is above 1, so that a finite
    all-time high is strictly above a finite price; its ratio is the
    float that [cap / vol] evaluated to (or 0 when the volume is not
    positive). Neither division raised. *)
Theorem results_invariant `{Py : Python} (cfg : config) (top_tokens : list value)
    (results : list scored) :
  result (process_tokens cfg top_tokens []) = Returns results ->
  forall s, s ∈ results ->
    exists (cap : Q) (vol price ath gain ratio : number),
      to_number (Market_Cap s) = Some (Fin cap) /\
      to_number (Volume s) = Some vol /\
      to_number (Current_Price s) = Some price /\
      to_number (ATH s) = Some ath /\
      (market_cap_min cfg < cap /\ cap < market_cap_max cfg)%Q /\
      number_ltb (Fin (volume_min cfg)) vol = true /\
      positive_number price /\
      truediv ath price = Some gain /\
      Potential_Gains s = of_number gain /\
      number_ltb (Fin 1) gain = true /\
      (forall p a : Q, price = Fin p -> ath = Fin a -> (p < a)%Q) /\
      guarded_quotient (Fin cap) vol = Some ratio /\
      MC_Volume_Ratio s = of_number ratio.
Proof. intros H s Hs. exact (results_facts cfg top_tokens results s H Hs). Qed.

Lemma results_invariant_witness :
  result (process_tokens default_cfg [token_X; token_Z] []) = Returns [scored_Z] /\
  exists (cap : Q) (vol price ath gain ratio : number),
    to_number (Market_Cap scored_Z) = Some (Fin cap) /\
    to_number (Volume scored_Z) = Some vol /\
    to_number (Current_Price scored_Z) = Some price /\
    to_number (ATH scored_Z) = Some ath /\
    (market_cap_min default_cfg < cap /\ cap < market_cap_max default_cfg)%Q /\
    number_ltb (Fin (volume_min default_cfg)) vol = true /\
    positive_number price /\
    truediv ath price = Some gain /\
    Potential_Gains scored_Z = of_number gain /\
    number_ltb (Fin 1) gain = true /\
    (forall p a : Q, price = Fin p -> ath = Fin a -> (p < a)%Q) /\
    guarded_quotient (Fin cap) vol = Some ratio /\
    MC_Volume_Ratio scored_Z = of_number ratio.
Proof.
  split; [reflexivity |].
  apply (results_invariant default_cfg [token_X; token_Z] [scored_Z]).
  - reflexivity.
  - apply list_elem_of_here.
Defined.

(** X12: when the market-cap maximum is not above the minimum (the two
    sliders crossed or equal), no token is kept: a loop that returns
    returns the empty list. *)
Theorem crossed_range_keeps_nothing `{Py : Python} (cfg : config)
    (top_tokens : list value) (results : list scored) :
  (market_cap_max cfg <= market_cap_min cfg)%Q ->
  result (process_tokens cfg top_tokens []) = Returns results ->
  results = [].
Proof.
  intros Hcross H. destruct results as [| s rest]; [reflexivity |].
  destruct (results_facts cfg top_tokens (s :: rest) s H)
    as (cap & _ & _ & _ & _ & _ & _ & _ & _ & _ & (L1 & L2) & _);
    [apply list_elem_of_here |].
  exfalso. apply (Qlt_irrefl cap).
  eapply Qlt_le_trans; [exact L2 |].
  eapply Qle_trans; [exact Hcross |]. apply Qlt_le_weak, L1.
Qed.

Lemma crossed_range_keeps_nothing_witness :
  (market_cap_max crossed_cfg <= market_cap_min crossed_cfg)%Q /\
  result (process_tokens crossed_cfg [token_X; token_Z] []) = Returns [] /\
  @nil scored = [].
Proof.
  assert (market_cap_max crossed_cfg <= market_cap_min crossed_cfg)%Q as Hcross
    by discriminate.
  split; [exact Hcross |]. split; [reflexivity |].
  apply (crossed_range_keeps_nothing crossed_cfg [token_X; token_Z] [] Hcross).
  reflexivity.
Defined.

(** X13: with the three thresholds inside the ranges of their sliders,
    every asset in [results] has a finite market cap strictly between
    100000 and 10^10 and a volume strictly above 100000; its ratio is
    then the float that [cap / vol] evaluated to, not the 0 put in for a
    volume that is not positive, and it is not negative (it is 0.0 when
    the quotient is below the smallest float, as for a volume of 10^400
    or an infinite one). *)
Theorem slider_range_results `{Py : Python} (cfg : config) (top_tokens : list value)
    (results : list scored) :
  slider_range cfg ->
  result (process_tokens cfg top_tokens []) = Returns results ->
  forall s, s ∈ results ->
    exists (cap : Q) (vol ratio : number),
      to_number (Market_Cap s) = Some (Fin cap) /\
      to_number (Volume s) = Some vol /\
      (100000 < cap /\ cap < 10000000000)%Q /\
      number_ltb (Fin 100000) vol = true /\
      truediv (Fin cap) vol = Some ratio /\
      MC_Volume_Ratio s = of_number ratio /\
      nonnegative ratio.
Proof.
  intros ((Hmin & _) & (_ & Hmax) & (Hvol & _)) H s Hs.
  destruct (results_facts cfg top_tokens results s H Hs)
    as (cap & vol & price & ath & gain & ratio & Ec & Ev & _ & _ & (L1 & L2) & L3
        & _ & _ & _ & _ & _ & Eq & Er).
  assert (100000 < cap)%Q as Hc by exact (Qle_lt_trans _ _ _ Hmin L1).
  assert (number_ltb (Fin 100000) vol = true) as Hv
    by exact (number_ltb_fin_l _ _ vol Hvol L3).
  assert (positive_number vol) as Hv0.
  { apply (number_ltb_fin_l 100000 0 vol); [discriminate | exact Hv]. }
  unfold guarded_quotient in Eq. rewrite Hv0 in Eq.
  exists cap, vol, ratio. repeat (split; [assumption |]).
  split; [split; [exact Hc | exact (Qlt_le_trans _ _ _ L2 Hmax)] |].
  repeat (split; [assumption |]).
  apply (truediv_nonnegative cap vol ratio); [| exact Hv0 | exact Eq].
  apply Qlt_le_weak. eapply Qlt_trans; [| exact Hc]. reflexivity.
Qed.

Lemma slider_range_results_witness :
  slider_range default_cfg /\
  result (process_tokens default_cfg [token_X; token_Z] []) = Returns [scored_Z] /\
  exists (cap : Q) (vol ratio : number),
    to_number (Market_Cap scored_Z) = Some (Fin cap) /\
    to_number (Volume scored_Z) = Some vol /\
    (100000 < cap /\ cap < 10000000000)%Q /\
    number_ltb (Fin 100000) vol = true /\
    truediv (Fin cap) vol = Some ratio /\
    MC_Volume_Ratio scored_Z = of_number ratio /\
    nonnegative ratio.
Proof.
  assert (slider_range default_cfg) as Hrange.
  { unfold slider_range. repeat split; discriminate. }
  split; [exact Hrange |]. split; [reflexivity |].
  apply (slider_range_results default_cfg [token_X; token_Z] [scored_Z] Hrange).
  - reflexivity.
  - apply list_elem_of_here.
Defined.

(** ** From the fetch to the end of the loop *)

(** X14: [filtered_results] raises either what [get_top_tokens] raised
    (a failure of a request, or the [TypeError] of a page that cannot be
    iterated), or what the loop of [main] raised on the tokens fetched;
    and on these the loop never fails for a missing [symbol]: all it can
    raise is [TypeError], [OverflowError], [AttributeError], or
    [KeyError] for one of the six other keys. *)
Theorem fetched_tokens_have_a_symbol `{Py : Python} (cfg : config)
    (fetch : Z -> response) (e : exn) :
  result (filtered_results cfg fetch) = Raises e ->
  result (get_top_tokens fetch) = Raises e \/
  exists top_tokens,
    result (get_top_tokens fetch) = Returns top_tokens /\
    result (process_tokens cfg top_tokens []) = Raises e /\
    (e = TypeError \/ e = OverflowError \/ e = AttributeError \/
     exists key,
       e = KeyError key /\
       In key ["name"; "current_price"; "ath"; "total_volume"; "market_cap";
               "price_change_percentage_7d_in_currency"]).
Proof.
  unfold filtered_results. intro H.
  apply result_bind_raises in H as [H | (top_tokens & Hfetch & H)];
    [left; exact H |].
  right. exists top_tokens. split; [exact Hfetch |]. split; [exact H |].
  apply process_tokens_raises_from in H
    as (before & token & after & -> & _ & H).
  apply process_token_raises in H
    as [-> | [-> | [(-> & _) | (key & entries & -> & -> & Hin & Hnone)]]]; auto.
  right. right. right. exists key. split; [reflexivity |].
  assert (keep_token (VDict entries) = true) as Hkeep.
  { assert (Forall (fun t => keep_token t = true)
              (before ++ VDict entries :: after)) as HF.
    { apply (fetch_pages_kept fetch [1; 2; 3; 4]%Z []); [constructor | exact Hfetch]. }
    rewrite Forall_forall in HF. apply HF.
    apply list_elem_of_In, in_elt. }
  simpl in Hkeep.
  simpl in Hin. destruct Hin as [<- | Hin]; [simpl; tauto |].
  destruct Hin as [<- | Hin]; [| simpl; tauto].
  rewrite Hnone in Hkeep. discriminate.
Qed.

Lemma fetched_tokens_have_a_symbol_witness :
  result (filtered_results scenario_cfg fetch_missing_ath) = Raises (KeyError "ath") /\
  (result (get_top_tokens fetch_missing_ath) = Raises (KeyError "ath") \/
   exists top_tokens,
     result (get_top_tokens fetch_missing_ath) = Returns top_tokens /\
     result (process_tokens scenario_cfg top_tokens []) = Raises (KeyError "ath") /\
     (KeyError "ath" = TypeError \/ KeyError "ath" = OverflowError \/
      KeyError "ath" = AttributeError \/
      exists key,
        KeyError "ath" = KeyError key /\
        In key ["name"; "current_price"; "ath"; "total_volume"; "market_cap";
                "price_change_percentage_7d_in_currency"])).
Proof.
  split; [reflexivity |].
  apply (fetched_tokens_have_a_symbol scenario_cfg fetch_missing_ath).
  reflexivity.
Defined.

(** ** Widening the thresholds *)

(** X15: a token the body keeps under some thresholds is kept, as the
    same asset, under any thresholds that are at least as wide: a market
    cap minimum and a volume minimum not higher, and a market-cap maximum
    not lower. *)
Theorem wider_thresholds_keep_more `{Py : Python} (cfg cfg' : config)
    (token : value) (s : scored) :
  (market_cap_min cfg' <= market_cap_min cfg)%Q ->
  (market_cap_max cfg <= market_cap_max cfg')%Q ->
  (volume_min cfg' <= volume_min cfg)%Q ->
  result (process_token cfg token) = Returns (Some s) ->
  result (process_token cfg' token) = Returns (Some s).
Proof.
  intros Hmin Hmax Hvol. unfold process_token. intro H.
  apply result_bind_returns in H as (token_name & H1 & H).
  apply result_bind_returns in H as (token_symbol & H2 & H).
  apply result_bind_returns in H as (current_price & H3 & H).
  apply result_bind_returns in H as (ath_price & H4 & H).
  apply result_bind_returns in H as (volume & H5 & H).
  apply result_bind_returns in H as (market_cap & H6 & H).
  apply result_bind_returns in H as (price_change_7d & H7 & H).
  apply result_bind_returns in H as (ratio & H8 & H).
  apply result_bind_returns in H as (gains & H9 & H).
  apply result_bind_returns in H as (keep & Hkeep & H).
  destruct keep; [| discriminate].
  rewrite (result_bind_returns_l _ _ _ H1), (result_bind_returns_l _ _ _ H2).
  rewrite (result_bind_returns_l _ _ _ H3), (result_bind_returns_l _ _ _ H4).
  rewrite (result_bind_returns_l _ _ _ H5), (result_bind_returns_l _ _ _ H6).
  rewrite (result_bind_returns_l _ _ _ H7), (result_bind_returns_l _ _ _ H8).
  rewrite (result_bind_returns_l _ _ _ H9).
  apply passes_filters_true in Hkeep
    as (c & v & g & Ec & Ev & Eg & L1 & L2 & L3 & L4).
  rewrite (passes_filters_numbers cfg' _ _ _ c v g Ec Ev Eg), bind_ret.
  rewrite (number_ltb_fin_l _ _ c Hmin L1), (number_ltb_fin_r _ _ c Hmax L2).
  rewrite (number_ltb_fin_l _ _ v Hvol L3), L4. exact H.
Qed.

Lemma wider_thresholds_keep_more_witness :
  result (process_token default_cfg token_Z) = Returns (Some scored_Z) /\
  result (process_token wide_cfg token_Z) = Returns (Some scored_Z).
Proof.
  split; [reflexivity |].
  apply (wider_thresholds_keep_more default_cfg wide_cfg token_Z scored_Z);
    try discriminate.
  reflexivity.
Defined.

(** ** Fields the body looks at late, or not at all *)

(** X16: the symbol is turned to upper case only once a token has passed
    the thresholds. On a token with finite numbers in its four numeric
    fields and a symbol that is not a string ([null], a number), the
    body first computes the two metrics, and raises [OverflowError] when
    one of the divisions does; else it raises [AttributeError] exactly
    when the four comparisons hold, and drops the token without any
    error when one of them fails. *)
Theorem non_string_symbol `{Py : Python} (cfg : config)
    (entries : list (string * value))
    (token_name token_symbol price_change_7d : value)
    (price ath vol cap : Q) :
  dict_get "name" entries = Some token_name ->
  dict_get "symbol" entries = Some token_symbol ->
  dict_get "current_price" entries = Some (VNum price) ->
  dict_get "ath" entries = Some (VNum ath) ->
  dict_get "total_volume" entries = Some (VNum vol) ->
  dict_get "market_cap" entries = Some (VNum cap) ->
  dict_get "price_change_percentage_7d_in_currency" entries = Some price_change_7d ->
  (forall s, token_symbol <> VStr s) ->
  result (process_token cfg (VDict entries))
  = match guarded_quotient (Fin cap) (Fin vol),
          guarded_quotient (Fin ath) (Fin price) with
    | Some _, Some gains =>
        if Qltb (market_cap_min cfg) cap && Qltb cap (market_cap_max cfg)
           && Qltb (volume_min cfg) vol && number_ltb (Fin 1) gains
        then Raises AttributeError
        else Returns None
    | _, _ => Raises OverflowError
    end.
Proof.
  intros E1 E2 E3 E4 E5 E6 E7 Hsym.
  rewrite (process_token_present cfg entries _ _ _ _ _ _ _ E1 E2 E3 E4 E5 E6 E7).
  pose proof (guarded_division_numbers (VNum cap) (VNum vol) _ _ eq_refl eq_refl)
    as R1.
  pose proof (guarded_division_numbers (VNum ath) (VNum price) _ _ eq_refl eq_refl)
    as R2.
  fold (mc_vol_ratio (VNum cap) (VNum vol)) in R1.
  fold (calculate_potential_gains (VNum price) (VNum ath)) in R2.
  destruct (guarded_quotient (Fin cap) (Fin vol)) as [ratio |];
    [| apply result_bind_raises_l, R1].
  rewrite (result_bind_returns_l _ _ _ R1).
  destruct (guarded_quotient (Fin ath) (Fin price)) as [gains |];
    [| apply result_bind_raises_l, R2].
  rewrite (result_bind_returns_l _ _ _ R2).
  rewrite passes_filters_gain, bind_ret.
  destruct (Qltb (market_cap_min cfg) cap && Qltb cap (market_cap_max cfg)
            && Qltb (volume_min cfg) vol && number_ltb (Fin 1) gains);
    [| reflexivity].
  destruct token_symbol as [| | | | | s | |]; try reflexivity.
  exfalso. exact (Hsym s eq_refl).
Qed.

Lemma non_string_symbol_witness :
  result (process_token default_cfg (VDict entries_null_symbol))
  = match guarded_quotient (Fin 300000000) (Fin 5000000),
          guarded_quotient (Fin 8) (Fin 2) with
    | Some _, Some gains =>
        if Qltb (market_cap_min default_cfg) 300000000
           && Qltb 300000000 (market_cap_max default_cfg)
           && Qltb (volume_min default_cfg) 5000000 && number_ltb (Fin 1) gains
        then Raises AttributeError
        else Returns None
    | _, _ => Raises OverflowError
    end.
Proof.
  apply (non_string_symbol default_cfg entries_null_symbol (VStr "Zcoin") VNone
           VNone 2 8 5000000 300000000); try reflexivity.
  intros s. discriminate.
Defined.

(** X17: on a token whose price is a number that is not positive and
    whose volume and market cap are numbers, the body computes the
    ratio, and raises [OverflowError] when that division does; else the
    token is dropped without any error: its all-time high, its symbol,
    its name and its 7-day change are never looked at, whatever they
    hold. *)
Theorem non_positive_price_is_dropped `{Py : Python} (cfg : config)
    (entries : list (string * value))
    (token_name token_symbol current_price ath_price volume market_cap
       price_change_7d : value) (price vol cap : number) :
  dict_get "name" entries = Some token_name ->
  dict_get "symbol" entries = Some token_symbol ->
  dict_get "current_price" entries = Some current_price ->
  dict_get "ath" entries = Some ath_price ->
  dict_get "total_volume" entries = Some volume ->
  dict_get "market_cap" entries = Some market_cap ->
  dict_get "price_change_percentage_7d_in_currency" entries = Some price_change_7d ->
  to_number current_price = Some price ->
  to_number volume = Some vol ->
  to_number market_cap = Some cap ->
  number_ltb (Fin 0) price = false ->
  result (process_token cfg (VDict entries))
  = match guarded_quotient cap vol with
    | Some _ => Returns None
    | None => Raises OverflowError
    end.
Proof.
  intros E1 E2 E3 E4 E5 E6 E7 Ep Ev Ec Hp.
  rewrite (process_token_present cfg entries _ _ _ _ _ _ _ E1 E2 E3 E4 E5 E6 E7).
  pose proof (guarded_division_numbers market_cap volume cap vol Ec Ev) as R1.
  fold (mc_vol_ratio market_cap volume) in R1.
  destruct (guarded_quotient cap vol) as [ratio |];
    [| apply result_bind_raises_l, R1].
  rewrite (result_bind_returns_l _ _ _ R1).
  assert (result (calculate_potential_gains current_price ath_price)
          = Returns (VNum 0)) as R2.
  { unfold calculate_potential_gains. rewrite guarded_division_result, Ep, Hp.
    reflexivity. }
  rewrite (result_bind_returns_l _ _ _ R2).
  rewrite (passes_filters_numbers cfg market_cap volume (VNum 0) cap vol (Fin 0)
             Ec Ev eq_refl), bind_ret.
  change (number_ltb (Fin 1) (Fin 0)) with false. rewrite andb_false_r.
  reflexivity.
Qed.

Lemma non_positive_price_is_dropped_witness :
  result (process_token default_cfg (VDict entries_zero_price))
  = match guarded_quotient (Fin 300000000) (Fin 5000000) with
    | Some _ => Returns None
    | None => Raises OverflowError
    end.
Proof.
  apply (non_positive_price_is_dropped default_cfg entries_zero_price
           (VStr "Zcoin") VNone (VNum 0) VNone (VNum 5000000) (VNum 300000000)
           VNone (Fin 0) (Fin 5000000) (Fin 300000000)); reflexivity.
Defined.

(** * Further properties of the rankings and of the consensus sets *)

Lemma set_of_all_rows `{Sorter} (by_ : sort_column) (ascending : bool)
    (df : list row) :
  (length df <= 30)%nat ->
  set_ (map Token (head 30 (sort_values by_ ascending df)))
  = set_ (map Token df).
Proof.
  intro L. rewrite head_all by exact L. unfold set_.
  apply list_to_set_perm_L, Permutation_map, sort_values_perm.
Qed.

(** X18: when the frame has 30 rows or fewer, every token is in all
    three tables: the first consensus set holds the display key of every
    row of the frame, and the second is empty. *)
Theorem small_frame_consensus `{Sorter} (df : list row) :
  (length df <= 30)%nat ->
  tokens_in_all_plots (rankings df) = set_ (map Token df) /\
  tokens_in_two_plots (rankings df) = ∅.
Proof.
  intro L. unfold rankings.
  cbn [tokens_in_all_plots tokens_in_two_plots].
  rewrite in_two_plots_spec, in_all_plots_spec, Token_cap_gains.
  rewrite !set_of_all_rows by exact L.
  unfold spec_exactly_two, spec_all_three.
  generalize (set_ (map Token df)). intro keys. split.
  - apply set_eq. intro key. rewrite !elem_of_intersection. tauto.
  - apply set_eq. intro key.
    rewrite elem_of_difference, !elem_of_union, !elem_of_intersection.
    split; [tauto |]. intro He. exfalso. exact (not_elem_of_empty key He).
Qed.

Lemma small_frame_consensus_witness :
  (length [row_X; row_Z] <= 30)%nat /\
  tokens_in_all_plots (@rankings insertion_sorter [row_X; row_Z])
  = set_ (map Token [row_X; row_Z]) /\
  tokens_in_two_plots (@rankings insertion_sorter [row_X; row_Z]) = ∅.
Proof.
  assert (length [row_X; row_Z] <= 30)%nat as L by (simpl; lia).
  split; [exact L |].
  apply (@small_frame_consensus insertion_sorter [row_X; row_Z] L).
Defined.

Lemma keys_of_table `{Sorter} (by_ : sort_column) (ascending : bool)
    (df : list row) (key : string) :
  key ∈ set_ (map Token (head 30 (sort_values by_ ascending df))) ->
  key ∈ set_ (map Token df).
Proof.
  unfold set_, head. rewrite !elem_of_list_to_set, !list_elem_of_In, !in_map_iff.
  intros (r & Hkey & Hr). exists r. split; [exact Hkey |].
  apply list_elem_of_In. apply list_elem_of_In in Hr.
  apply (subseteq_take 30) in Hr.
  rewrite <- (sort_values_perm by_ ascending df). exact Hr.
Qed.

Lemma size_set_le (keys : list string) : size (set_ keys) <= length keys.
Proof.
  unfold set_. induction keys as [| key rest IH].
  - rewrite list_to_set_nil, size_empty. simpl. lia.
  - rewrite list_to_set_cons, size_union_alt, size_singleton. simpl length.
    assert (size (list_to_set rest ∖ ({[key]} : gset string))
            <= size (list_to_set rest : gset string)) as Hle.
    { apply subseteq_size. intros x Hx. apply elem_of_difference in Hx. tauto. }
    lia.
Qed.

(** X19: a key in either consensus set is the display key of a row of
    the frame; a key in the first set is in each of the three tables;
    and the first set has at most 30 keys. *)
Theorem consensus_keys_come_from_the_frame `{Sorter} (df : list row) :
  (forall key, key ∈ tokens_in_all_plots (rankings df) ->
     key ∈ set_ (map Token (df_sorted (rankings df))) /\
     key ∈ set_ (map Token (df_sorted_7d (rankings df))) /\
     key ∈ set_ (map Token (df_sorted_mc_vol (rankings df))) /\
     key ∈ set_ (map Token df)) /\
  (forall key, key ∈ tokens_in_two_plots (rankings df) ->
     key ∈ set_ (map Token df)) /\
  size (tokens_in_all_plots (rankings df)) <= 30.
Proof.
  unfold rankings.
  cbn [tokens_in_all_plots tokens_in_two_plots df_sorted df_sorted_7d
       df_sorted_mc_vol].
  rewrite in_two_plots_spec, in_all_plots_spec, Token_cap_gains.
  unfold spec_exactly_two, spec_all_three.
  split; [| split].
  - intros key Hkey. rewrite !elem_of_intersection in Hkey.
    destruct Hkey as [[Ha Hb] Hc].
    repeat split; try assumption. eapply keys_of_table, Ha.
  - intros key Hkey.
    rewrite elem_of_difference, !elem_of_union, !elem_of_intersection in Hkey.
    destruct Hkey as [[[[Ha _] | [Hb _]] | [Hc _]] _];
      eapply keys_of_table; eassumption.
  - etransitivity.
    + apply subseteq_size. intros key Hkey.
      rewrite !elem_of_intersection in Hkey. destruct Hkey as [[Ha _] _]. exact Ha.
    + etransitivity; [apply size_set_le |].
      rewrite length_map, head_30. apply Nat.le_min_l.
Qed.

Lemma cell_le_trans (ascending : bool) (a b c : option Q) :
  cell_le ascending a b -> cell_le ascending b c -> cell_le ascending a c.
Proof.
  destruct a as [x |], b as [y |], c as [z |], ascending; simpl;
    try tauto; intros H1 H2; eapply Qle_trans; eassumption.
Qed.

Lemma cell_le_refl (ascending : bool) (a : option Q) : cell_le ascending a a.
Proof. destruct a, ascending; simpl; auto using Qle_refl. Qed.

Lemma sort_values_strongly_sorted `{Sorter} (by_ : sort_column) (ascending : bool)
    (df : list row) :
  StronglySorted (in_order by_ ascending) (sort_values by_ ascending df).
Proof.
  apply Sorted_StronglySorted; [| apply sort_values_sorted].
  intros r1 r2 r3. apply cell_le_trans.
Qed.

Lemma strongly_sorted_app {A} (R : A -> A -> Prop) (l1 l2 : list A) (x1 x2 : A) :
  StronglySorted R (l1 ++ l2) -> x1 ∈ l1 -> x2 ∈ l2 -> R x1 x2.
Proof.
  induction l1 as [| y l1 IH]; simpl; intros HS H1 H2.
  - apply elem_of_nil in H1. contradiction.
  - apply StronglySorted_inv in HS as [HS HF].
    apply elem_of_cons in H1 as [-> | H1]; [| exact (IH HS H1 H2)].
    rewrite Forall_forall in HF. apply HF.
    apply elem_of_app. right. exact H2.
Qed.

(** X20: in each ranking, no row left out of the 30 ranks better than a
    row taken: the rows taken and the rows left out are together the
    rows of the frame, every row taken stands in the order of the column
    before every row left out, and the first row taken stands before
    every row of the frame. *)
Theorem rows_left_out_rank_no_better `{Sorter} (by_ : sort_column)
    (ascending : bool) (df : list row) :
  Permutation (head 30 (sort_values by_ ascending df)
               ++ drop 30 (sort_values by_ ascending df)) df /\
  (forall taken left_out,
     taken ∈ head 30 (sort_values by_ ascending df) ->
     left_out ∈ drop 30 (sort_values by_ ascending df) ->
     in_order by_ ascending taken left_out) /\
  (forall top r,
     head 30 (sort_values by_ ascending df) !! 0%nat = Some top ->
     r ∈ df ->
     in_order by_ ascending top r).
Proof.
  unfold head.
  pose proof (sort_values_strongly_sorted by_ ascending df) as HS.
  split; [| split].
  - rewrite take_drop. apply sort_values_perm.
  - intros taken left_out Ht Hl.
    rewrite <- (take_drop 30 (sort_values by_ ascending df)) in HS.
    exact (strongly_sorted_app _ _ _ _ _ HS Ht Hl).
  - intros top r Htop Hr.
    rewrite <- (sort_values_perm by_ ascending df) in Hr.
    destruct (sort_values by_ ascending df) as [| first rest];
      [discriminate |].
    simpl in Htop. injection Htop as ->.
    apply StronglySorted_inv in HS as [_ HF].
    apply elem_of_cons in Hr as [-> | Hr].
    + apply cell_le_refl.
    + rewrite Forall_forall in HF. apply HF, Hr.
Qed.

Lemma rows_left_out_rank_no_better_witness :
  head 30 (@sort_values insertion_sorter MC_Volume_Ratio_col true [row_Z; row_X])
    !! 0%nat = Some row_X /\
  row_Z ∈ [row_Z; row_X] /\
  in_order MC_Volume_Ratio_col true row_X row_Z.
Proof.
  assert (row_Z ∈ [row_Z; row_X]) as Hin by apply list_elem_of_here.
  split; [reflexivity |]. split; [exact Hin |].
  apply (proj2 (proj2 (@rows_left_out_rank_no_better insertion_sorter
                         MC_Volume_Ratio_col true [row_Z; row_X]))
           row_X row_Z); [reflexivity | exact Hin].
Defined.

Lemma py_min_le (x : Q) : (py_min x 1000 <= 1000)%Q.
Proof.
  unfold py_min. destruct (Qltb 1000 x) eqn:E; [apply Qle_refl |].
  apply Qltb_ge, E.
Qed.

Lemma cap_gains_unchanged (r : row) :
  (col_potential_gains r <= 1000)%Q -> cap_gains r = r.
Proof.
  intro L. destruct r. unfold cap_gains, py_min. simpl in *.
  apply Qltb_ge in L. rewrite L. reflexivity.
Qed.

Lemma row_of_table `{Sorter} (by_ : sort_column) (ascending : bool)
    (df : list row) (r : row) :
  r ∈ head 30 (sort_values by_ ascending df) -> r ∈ df.
Proof.
  intro Hr. apply (subseteq_take 30) in Hr.
  rewrite <- (sort_values_perm by_ ascending df). exact Hr.
Qed.

(** X21: every row of the potential-gain table is a row of the frame with
    its gain cut to at most 1000, and a row whose gain is at most 1000 is
    shown as it is; the rows of the two other tables are rows of the
    frame unchanged, with their gains not capped. *)
Theorem capped_chart `{Sorter} (df : list row) :
  (forall r, r ∈ df_sorted (rankings df) ->
     (col_potential_gains r <= 1000)%Q /\
     exists r0, r0 ∈ df /\ r = cap_gains r0) /\
  (forall r0, (col_potential_gains r0 <= 1000)%Q -> cap_gains r0 = r0) /\
  (forall r, r ∈ df_sorted_7d (rankings df) \/ r ∈ df_sorted_mc_vol (rankings df) ->
     r ∈ df).
Proof.
  unfold rankings. cbn [df_sorted df_sorted_7d df_sorted_mc_vol].
  split; [| split].
  - intros r Hr. apply list_elem_of_In, in_map_iff in Hr as (r0 & <- & Hr0).
    split; [apply py_min_le |].
    exists r0. split; [| reflexivity].
    eapply row_of_table. apply list_elem_of_In. exact Hr0.
  - exact cap_gains_unchanged.
  - intros r [Hr | Hr]; eapply row_of_table; exact Hr.
Qed.
